(** * process_stereo_pairs.py: pairing of two camera streams by timestamp

    A shallow embedding of the script [process_stereo_pairs.py].  Python [str] is
    [string] (a sequence of bytes; comparing UTF-8 bytes orders strings as
    Python orders code points), [pathlib.Path] is a record of path
    components, a [dict] is a [gmap], a [set] is a [gset].  The file system,
    the standard output and the calls into the [depth_anything_3] package are
    threaded through a state-and-exception monad; what the package and the
    operating system answer is a parameter of the development. *)

From Stdlib Require Import String Ascii List Sorted Permutation DecimalString.
From stdpp Require Import base option list sorting gmap strings.

Local Open Scope string_scope.

(** ** Python strings *)

Module PyStr.

(** [s.split(sep)] for a separator of one character: the pieces of [s]
    between occurrences of [sep]; never the empty list. *)
Fixpoint split (sep : ascii) (s : string) : list string :=
  match s with
  | EmptyString => [EmptyString]
  | String c s' =>
      if Ascii.eqb c sep then EmptyString :: split sep s'
      else match split sep s' with
           | [] => [String c EmptyString]
           | piece :: rest => String c piece :: rest
           end
  end.

(** [sep.join(l)]. *)
Fixpoint join (sep : string) (l : list string) : string :=
  match l with
  | [] => EmptyString
  | [x] => x
  | x :: rest => x ++ sep ++ join sep rest
  end.

(** Some suffix of [n] (possibly [n] itself, possibly empty) satisfies [f]:
    what a [*] in a pattern tries. *)
Fixpoint any_suffix (f : string -> bool) (n : string) : bool :=
  f n || match n with EmptyString => false | String _ n' => any_suffix f n' end.

(** [fnmatch.fnmatchcase name pat] for patterns made of literal characters,
    [*] and [?] (the script's pattern has no character class). *)
Fixpoint fnmatch (pat name : string) {struct pat} : bool :=
  match pat with
  | EmptyString => match name with EmptyString => true | _ => false end
  | String p pat' =>
      if Ascii.eqb p "*" then any_suffix (fnmatch pat') name
      else match name with
           | EmptyString => false
           | String c name' =>
               (Ascii.eqb p "?" || Ascii.eqb p c) && fnmatch pat' name'
           end
  end.

(** A pattern without wildcards. *)
Fixpoint literal (pat : string) : bool :=
  match pat with
  | EmptyString => true
  | String p pat' => negb (Ascii.eqb p "*") && negb (Ascii.eqb p "?") && literal pat'
  end.

(** [str(n)] for a natural number, as an f-string formats it. *)
Definition of_nat (n : nat) : string := NilZero.string_of_uint (Nat.to_uint n).

(** Occurrence of a character. *)
Fixpoint contains (c : ascii) (s : string) : bool :=
  match s with
  | EmptyString => false
  | String d s' => Ascii.eqb d c || contains c s'
  end.

(** Python's [<=] on [str]: lexicographic on the characters' codes, a proper
    prefix being smaller. *)
Fixpoint leb (s1 s2 : string) : bool :=
  match s1, s2 with
  | EmptyString, _ => true
  | String _ _, EmptyString => false
  | String c1 s1', String c2 s2' =>
      if (N_of_ascii c1 <? N_of_ascii c2)%N then true
      else if (N_of_ascii c2 <? N_of_ascii c1)%N then false
      else leb s1' s2'
  end.

Definition le (s1 s2 : string) : Prop := leb s1 s2 = true.
Definition lt (s1 s2 : string) : Prop := le s1 s2 /\ s1 <> s2.

#[global] Instance le_dec s1 s2 : Decision (le s1 s2).
Proof. unfold le. apply _. Defined.

(** [sorted(xs)] on strings. *)
Definition sorted (l : list string) : list string := merge_sort le l.

End PyStr.

(** ** The script's first function *)

(** [get_timestamp_from_filename]: [filename.split("_")[0]]. *)
Definition get_timestamp_from_filename (filename : string) : string :=
  hd EmptyString (PyStr.split "_" filename).

(** ** pathlib paths *)

(** A pure POSIX path: whether it starts at the root, and its components. *)
Record Path := { root : bool; parts : list string }.

#[global] Instance Path_eq_dec : EqDecision Path.
Proof. solve_decision. Defined.

#[global] Instance Path_countable : Countable Path :=
  inj_countable' (fun p => (root p, parts p))
                 (fun rp => {| root := rp.1; parts := rp.2 |})
                 (fun p => match p with Build_Path _ _ => eq_refl end).

(** [p / c] for a relative component [c] (every right operand in the script
    is one: a stream name, a directory entry, [pair_<timestamp>]). *)
Definition path_join (p : Path) (c : string) : Path :=
  {| root := root p; parts := parts p ++ [c] |}.
Infix "//" := path_join (at level 40, left associativity).

(** [p.name]: the final component. *)
Definition name (p : Path) : string := default EmptyString (last (parts p)).

(** [str(p)]. *)
Definition str (p : Path) : string :=
  match root p, parts p with
  | false, [] => "."
  | false, ps => PyStr.join "/" ps
  | true, ps => "/" ++ PyStr.join "/" ps
  end.

(** [get_timestamp_from_filename(f.name)], the key of a path. *)
Definition path_key (f : Path) : string := get_timestamp_from_filename (name f).

(** ** The file system *)

(** A path names a regular file or a directory; a directory carries its
    entries in the order the operating system lists them. *)
Inductive Node := File | Dir (entries : list string).

Abbreviation FS := (gmap Path Node).

(** [p.exists()]. *)
Definition path_exists (fs : FS) (p : Path) : bool :=
  match fs !! p with Some _ => true | None => false end.

(** [p.glob(pat)] for a pattern of one component: the entries of [p] that
    match, each joined to [p], in listing order; nothing when [p] is not a
    directory. *)
Definition path_glob (fs : FS) (p : Path) (pat : string) : list Path :=
  match fs !! p with
  | Some (Dir entries) => map (path_join p) (List.filter (PyStr.fnmatch pat) entries)
  | _ => []
  end.

(** ** Exceptions, events and the monad of the script *)

Inductive exn :=
| FileNotFoundError (msg : string)
| KeyError (key : string)
| RuntimeError (msg : string).

Inductive Result (A : Type) :=
| Ok (a : A)
| Raise (e : exn).
Arguments Ok {A} a.
Arguments Raise {A} e.

Section Script.

(** The loaded network, opaque to the script. *)
Variable Model : Type.

(** What the script does to the outside, in order. *)
Inductive Event :=
| EPrint (line : string)
| EFromPretrained (model_dir : string)
| ETo (m : Model) (device : string)
| EMkdir (p : Path)
| EInference (m : Model) (images : list string) (export_dir export_format : string).

Record World := { files : FS; trace : list Event }.

Definition M (A : Type) : Type := World -> Result A * World.

Definition ret {A} (a : A) : M A := fun w => (Ok a, w).

Definition bind {A B} (m : M A) (k : A -> M B) : M B :=
  fun w => match m w with
           | (Ok a, w') => k a w'
           | (Raise e, w') => (Raise e, w')
           end.

Definition raise {A} (e : exn) : M A := fun w => (Raise e, w).

Notation "'do' x <- m ; k" := (bind m (fun x => k))
  (at level 10, x name, m at level 100, k at level 200).
Notation "'exec' m ; k" := (bind m (fun _ => k))
  (at level 10, m at level 100, k at level 200).

Definition emit (e : Event) : M unit :=
  fun w => (Ok tt, {| files := files w; trace := trace w ++ [e] |}).

(** [print(line)]. *)
Definition print (line : string) : M unit := emit (EPrint line).

(** [p.exists()] and [p.glob(pat)] read the file system and answer from it.
    An error of the system call itself (no permission to search a parent
    directory, a name that is too long), which [exists] passes on, is outside
    the model: every path either is in the file system or is not. *)
Definition exists_ (p : Path) : M bool := fun w => (Ok (path_exists (files w) p), w).
Definition glob (p : Path) (pat : string) : M (list Path) :=
  fun w => (Ok (path_glob (files w) p pat), w).

(** The collaborators: the [depth_anything_3] package and [Path.mkdir].
    What they answer is not fixed by the script: each may return or raise,
    and each may write to the file system (a download cache, the created
    directory, the exported files), so each maps the file system it finds to
    its answer and the file system it leaves. *)
Record Env := {
  env_from_pretrained : string -> FS -> Result Model * FS;
  env_to : Model -> string -> FS -> Result Model * FS;
  env_mkdir : Path -> FS -> Result unit * FS;
  env_inference : Model -> list string -> string -> string -> FS -> Result unit * FS
}.

Variable env : Env.

(** [DepthAnything3.from_pretrained(model_dir)]. *)
Definition from_pretrained (model_dir : string) : M Model :=
  fun w => let '(r, fs') := env_from_pretrained env model_dir (files w) in
           (r, {| files := fs'; trace := trace w ++ [EFromPretrained model_dir] |}).

(** [model.to(device=device)]. *)
Definition to (m : Model) (device : string) : M Model :=
  fun w => let '(r, fs') := env_to env m device (files w) in
           (r, {| files := fs'; trace := trace w ++ [ETo m device] |}).

(** [p.mkdir(parents=True, exist_ok=True)]. *)
Definition mkdir (p : Path) : M unit :=
  fun w => let '(r, fs') := env_mkdir env p (files w) in
           (r, {| files := fs'; trace := trace w ++ [EMkdir p] |}).

(** [model.inference(images, export_dir=..., export_format=...)]; the
    prediction it returns is not used by the script. *)
Definition inference (m : Model) (images : list string)
    (export_dir export_format : string) : M unit :=
  fun w => let '(r, fs') := env_inference env m images export_dir export_format (files w) in
           (r, {| files := fs';
                  trace := trace w ++ [EInference m images export_dir export_format] |}).

(** A [for] loop (the progress bar that [tqdm] draws around it is not
    modelled), and a list comprehension whose element expression may raise. *)
Fixpoint for_ {A} (l : list A) (body : A -> M unit) : M unit :=
  match l with
  | [] => ret tt
  | x :: l' => exec body x; for_ l' body
  end.

Fixpoint comprehension {A B} (f : A -> M B) (l : list A) : M (list B) :=
  match l with
  | [] => ret []
  | x :: l' => do y <- f x; do ys <- comprehension f l'; ret (y :: ys)
  end.

(** ** The script *)

(** [{key(x): x for x in xs}]: a later element replaces an earlier one with
    the same key. *)
Definition dict_of {V} (key : V -> string) (xs : list V) : gmap string V :=
  fold_left (fun d x => <[key x := x]> d) xs ∅.

(** [d[k]]. *)
Definition getitem {V} (d : gmap string V) (k : string) : M V :=
  match d !! k with
  | Some v => ret v
  | None => raise (KeyError k)
  end.

Definition pattern : string := "*_undistorted.jpg".

Definition find_stereo_pairs (stream1_dir stream2_dir : Path) : M (list (Path * Path)) :=
  do g1 <- glob stream1_dir pattern;
  let stream1_images := dict_of path_key g1 in
  do g2 <- glob stream2_dir pattern;
  let stream2_images := dict_of path_key g2 in
  let common_timestamps :=
    PyStr.sorted (elements (dom stream1_images ∩ dom stream2_images)) in
  do pairs <- comprehension
       (fun ts => do l <- getitem stream1_images ts;
                  do r <- getitem stream2_images ts;
                  ret (l, r))
       common_timestamps;
  ret pairs.

(** The body of the loop over the pairs. *)
Definition process_pair (model : Model) (output_dir : Path) (export_format : string)
    (pair : Path * Path) : M unit :=
  let '(left_path, right_path) := pair in
  let timestamp := path_key left_path in
  let pair_output_dir := output_dir // ("pair_" ++ timestamp) in
  inference model [str left_path; str right_path] (str pair_output_dir) export_format.

Definition process_stereo_pairs (data_dir output_dir : Path)
    (model_dir export_format device : string) : M unit :=
  let stream1_dir := data_dir // "stream_1201-1" in
  let stream2_dir := data_dir // "stream_1201-2" in
  do e1 <- exists_ stream1_dir;
  if negb e1 then
    raise (FileNotFoundError ("Stream 1 directory not found: " ++ str stream1_dir))
  else
  do e2 <- exists_ stream2_dir;
  if negb e2 then
    raise (FileNotFoundError ("Stream 2 directory not found: " ++ str stream2_dir))
  else
  do pairs <- find_stereo_pairs stream1_dir stream2_dir;
  exec print ("Found " ++ PyStr.of_nat (length pairs) ++ " stereo pairs");
  match pairs with
  | [] => print "No matching pairs found!"
  | _ :: _ =>
      exec print ("Loading model: " ++ model_dir);
      do model <- from_pretrained model_dir;
      do model <- to model device;
      exec mkdir output_dir;
      for_ pairs (process_pair model output_dir export_format)
  end.

(** The parsed command line.  [main] is modelled from the namespace that
    [parse_args] returns; the parser itself, which can end the process on its
    own ([--help], an unknown option or format), is not. *)
Record Args := {
  arg_data_dir : Path;
  arg_output_dir : option Path;
  arg_model_dir : string;
  arg_export_format : string;
  arg_device : string
}.

Definition main (args : Args) : M unit :=
  let output_dir := default (arg_data_dir args // "depth_output") (arg_output_dir args) in
  process_stereo_pairs (arg_data_dir args) output_dir
    (arg_model_dir args) (arg_export_format args) (arg_device args).

(** The interpreter's exit status: 0 when [main] returns, 1 when an
    exception leaves it. *)
Definition exit_status (args : Args) (w : World) : nat * World :=
  match main args w with
  | (Ok _, w') => (0, w')
  | (Raise _, w') => (1, w')
  end.

End Script.

Arguments EPrint {Model} line.
Arguments EFromPretrained {Model} model_dir.
Arguments ETo {Model} m device.
Arguments EMkdir {Model} p.
Arguments EInference {Model} m images export_dir export_format.
Arguments files {Model} w.
Arguments trace {Model} w.
Arguments Build_World {Model} files trace.
Arguments ret {Model A} a.
Arguments bind {Model A B} m k.
Arguments raise {Model A} e.
Arguments emit {Model} e.
Arguments print {Model} line.
Arguments exists_ {Model} p.
Arguments glob {Model} p pat.
Arguments env_from_pretrained {Model} e.
Arguments env_to {Model} e.
Arguments env_mkdir {Model} e.
Arguments env_inference {Model} e.
Arguments from_pretrained {Model} env model_dir.
Arguments to {Model} env m device.
Arguments mkdir {Model} env p.
Arguments inference {Model} env m images export_dir export_format.
Arguments for_ {Model A} l body.
Arguments comprehension {Model A B} f l.
Arguments getitem {Model V} d k.
Arguments find_stereo_pairs {Model} stream1_dir stream2_dir.
Arguments process_pair {Model} env model output_dir export_format pair.
Arguments process_stereo_pairs {Model} env data_dir output_dir model_dir export_format device.
Arguments main {Model} env args.
Arguments exit_status {Model} env args w.

(** ** Vocabulary of the statements *)

(** The key of a pair is the key of its left image. *)
Definition pair_key (p : Path * Path) : string := path_key p.1.

(** The keys of the files of a directory that match the pattern, in listing
    order. *)
Definition stream_keys (fs : FS) (d : Path) : list string :=
  map path_key (path_glob fs d pattern).

(** The two dictionaries and the sorted common keys of [find_stereo_pairs]. *)
Definition stream_images (fs : FS) (d : Path) : gmap string Path :=
  dict_of path_key (path_glob fs d pattern).

Definition common_timestamps (fs : FS) (d1 d2 : Path) : list string :=
  PyStr.sorted (elements (dom (stream_images fs d1) ∩ dom (stream_images fs d2))).

(** What the comprehension of [find_stereo_pairs] builds for a common key. *)
Definition paired (fs : FS) (d1 d2 : Path) (ts : string) (p : Path * Path) : Prop :=
  stream_images fs d1 !! ts = Some p.1 /\ stream_images fs d2 !! ts = Some p.2.

(** The two stream directories of a data directory. *)
Definition stream1 (data_dir : Path) : Path := data_dir // "stream_1201-1".
Definition stream2 (data_dir : Path) : Path := data_dir // "stream_1201-2".

(** The call the loop makes for a pair. *)
Definition call_of {Model} (m : Model) (output_dir : Path) (export_format : string)
    (p : Path * Path) : Event Model :=
  EInference m [str p.1; str p.2] (str (output_dir // ("pair_" ++ pair_key p))) export_format.

(** What a run with pairs prints and calls before it moves the model to the
    device. *)
Definition header {Model} (n : nat) (model_dir : string) : list (Event Model) :=
  [EPrint ("Found " ++ PyStr.of_nat n ++ " stereo pairs");
   EPrint ("Loading model: " ++ model_dir);
   EFromPretrained model_dir].

Definition is_load {Model} (e : Event Model) : bool :=
  match e with EFromPretrained _ => true | _ => false end.
Definition is_inference {Model} (e : Event Model) : bool :=
  match e with EInference _ _ _ _ => true | _ => false end.
Definition is_mkdir {Model} (e : Event Model) : bool :=
  match e with EMkdir _ => true | _ => false end.

Definition count {Model} (f : Event Model -> bool) (tr : list (Event Model)) : nat :=
  length (List.filter f tr).

(** ** Sample worlds *)

(** A relative data directory, a file system holding its two stream
    directories with the given listings, and collaborators that always
    succeed, that fail to load, and that fail at inference. *)
Definition sample_data : Path := {| root := false; parts := ["data"] |}.

Definition sample_files (entries1 entries2 : list string) : FS :=
  <[stream1 sample_data := Dir entries1]>
    (<[stream2 sample_data := Dir entries2]> ∅).

Definition sample_world (entries1 entries2 : list string) : World unit :=
  {| files := sample_files entries1 entries2; trace := [] |}.

Definition sample_env : Env unit := {|
  env_from_pretrained := fun _ fs => (Ok tt, fs);
  env_to := fun m _ fs => (Ok m, fs);
  env_mkdir := fun p fs => (Ok tt, <[p := Dir []]> fs);
  env_inference := fun _ _ export_dir _ fs => (Ok tt, fs)
|}.

Definition sample_env_inference_raises : Env unit := {|
  env_from_pretrained := fun _ fs => (Ok tt, fs);
  env_to := fun m _ fs => (Ok m, fs);
  env_mkdir := fun p fs => (Ok tt, <[p := Dir []]> fs);
  env_inference := fun _ _ _ _ fs => (Raise (RuntimeError "CUDA out of memory"), fs)
|}.

Definition sample_env_load_raises : Env unit := {|
  env_from_pretrained := fun _ fs => (Raise (RuntimeError "model not found"), fs);
  env_to := fun m _ fs => (Ok m, fs);
  env_mkdir := fun p fs => (Ok tt, <[p := Dir []]> fs);
  env_inference := fun _ _ _ _ fs => (Ok tt, fs)
|}.

Definition sample_args : Args := {|
  arg_data_dir := sample_data;
  arg_output_dir := None;
  arg_model_dir := "depth-anything/DA3NESTED-GIANT-LARGE-1.1";
  arg_export_format := "npz";
  arg_device := "cuda"
|}.

Definition sample_env_mkdir_raises : Env unit := {|
  env_from_pretrained := fun _ fs => (Ok tt, fs);
  env_to := fun m _ fs => (Ok m, fs);
  env_mkdir := fun _ fs => (Raise (RuntimeError "Permission denied"), fs);
  env_inference := fun _ _ _ _ fs => (Ok tt, fs)
|}.

(** ** Further vocabulary *)

(** The documented naming of the stream files: every entry the pattern
    selects is [<t>_undistorted.jpg] for a [<t>] without underscore. *)
Definition well_named (entries : list string) : Prop :=
  forall n, n ∈ entries -> PyStr.fnmatch pattern n = true ->
    exists t, n = t ++ "_undistorted.jpg" /\ PyStr.contains "_" t = false.

(** The directory the loop passes as [export_dir] for a pair. *)
Definition export_dir_of (output_dir : Path) (p : Path * Path) : string :=
  str (output_dir // ("pair_" ++ pair_key p)).

(** The four collaborator calls keep a property of the file system. *)
Definition env_preserves {Model} (env : Env Model) (P : FS -> Prop) : Prop :=
  (forall model_dir fs, P fs -> P (snd (env_from_pretrained env model_dir fs))) /\
  (forall m device fs, P fs -> P (snd (env_to env m device fs))) /\
  (forall p fs, P fs -> P (snd (env_mkdir env p fs))) /\
  (forall m images export_dir export_format fs,
     P fs -> P (snd (env_inference env m images export_dir export_format fs))).

(** The output directory of a run of [main]. *)
Definition output_dir_of (args : Args) : Path :=
  default (arg_data_dir args // "depth_output") (arg_output_dir args).


(** The export directories of the inference calls of a trace, in order. *)
Definition export_dirs {Model} (tr : list (Event Model)) : list string :=
  flat_map (fun e => match e with
                     | EInference _ _ export_dir _ => [export_dir]
                     | _ => []
                     end) tr.

(** The stage of a run an event belongs to: printing, loading, moving to
    the device, creating the output directory, inference. *)
Definition phase {Model} (e : Event Model) : nat :=
  match e with
  | EPrint _ => 0
  | EFromPretrained _ => 1
  | ETo _ _ => 2
  | EMkdir _ => 3
  | EInference _ _ _ _ => 4
  end.

(** * Properties *)

(** ** Strings *)

#[local] Arguments String.append : simpl nomatch.

Module PyStrFacts.
Import PyStr.

Lemma app_nil_r (s : string) : s ++ "" = s.
Proof. induction s as [|c s IH]; simpl; [done | by rewrite IH]. Qed.

Lemma app_assoc (s1 s2 s3 : string) : (s1 ++ s2) ++ s3 = s1 ++ (s2 ++ s3).
Proof. induction s1 as [|c s1 IH]; simpl; [done | by rewrite IH]. Qed.

Lemma contains_app c s1 s2 :
  contains c (s1 ++ s2) = contains c s1 || contains c s2.
Proof.
  induction s1 as [|d s1 IH]; simpl; [done |].
  rewrite IH. by destruct (Ascii.eqb d c).
Qed.

Lemma split_not_nil sep s : split sep s <> [].
Proof.
  destruct s as [|c s]; simpl; [done |].
  destruct (Ascii.eqb c sep); [done |]. by destruct (split sep s).
Qed.

Lemma any_suffix_true f n :
  any_suffix f n = true <-> exists t s, n = t ++ s /\ f s = true.
Proof.
  induction n as [|c n IH]; simpl.
  - rewrite orb_false_r. split.
    + intros H. by exists "", "".
    + intros (t & s & E & H). destruct t; [|done]. simpl in E. by subst.
  - rewrite orb_true_iff, IH. split.
    + intros [H | (t & s & -> & H)].
      * by exists "", (String c n).
      * by exists (String c t), s.
    + intros (t & s & E & H). destruct t as [|d t]; simpl in E.
      * left. by subst.
      * right. injection E as -> ->. by exists t, s.
Qed.

(** A pattern without wildcards matches itself only. *)
Lemma fnmatch_literal pat n :
  literal pat = true -> (fnmatch pat n = true <-> n = pat).
Proof.
  revert n. induction pat as [|p pat IH]; intros n Hl; simpl in *.
  - destruct n; split; congruence.
  - apply andb_true_iff in Hl as [Hl Hl3]. apply andb_true_iff in Hl as [Hl1 Hl2].
    apply negb_true_iff in Hl1, Hl2. rewrite Hl1, Hl2. simpl.
    destruct n as [|c n]; [split; congruence |].
    rewrite andb_true_iff, (IH n Hl3), Ascii.eqb_eq. split.
    + by intros [-> ->].
    + intros E. by injection E as -> ->.
Qed.

End PyStrFacts.

(** The files the script looks at are those named [<t>_undistorted.jpg]. *)
Lemma fnmatch_pattern (n : string) :
  PyStr.fnmatch pattern n = true <-> exists t, n = t ++ "_undistorted.jpg".
Proof.
  change (PyStr.fnmatch pattern n)
    with (PyStr.any_suffix (PyStr.fnmatch "_undistorted.jpg") n).
  rewrite PyStrFacts.any_suffix_true. split.
  - intros (t & s & -> & H). apply PyStrFacts.fnmatch_literal in H; [|done].
    subst. by exists t.
  - intros (t & ->). exists t, "_undistorted.jpg". split; [done |].
    by apply PyStrFacts.fnmatch_literal.
Qed.

(** ** The timestamp key *)

Lemma get_timestamp_cons (c : ascii) (s : string) :
  get_timestamp_from_filename (String c s) =
  if Ascii.eqb c "_" then "" else String c (get_timestamp_from_filename s).
Proof.
  unfold get_timestamp_from_filename. simpl.
  destruct (Ascii.eqb c "_"); [done |].
  pose proof (PyStrFacts.split_not_nil "_" s).
  by destruct (PyStr.split "_" s).
Qed.

Lemma get_timestamp_no_underscore (s : string) :
  PyStr.contains "_" (get_timestamp_from_filename s) = false.
Proof.
  induction s as [|c s IH]; [done |].
  rewrite get_timestamp_cons. destruct (Ascii.eqb c "_") eqn:E; [done |].
  simpl. by rewrite E, IH.
Qed.

Lemma get_timestamp_id (s : string) :
  PyStr.contains "_" s = false -> get_timestamp_from_filename s = s.
Proof.
  induction s as [|c s IH]; [done |]. simpl. intros H.
  apply orb_false_iff in H as [H1 H2].
  rewrite get_timestamp_cons, H1. by rewrite IH.
Qed.

Lemma get_timestamp_split (s : string) :
  PyStr.contains "_" s = true ->
  exists rest, s = get_timestamp_from_filename s ++ String "_" rest.
Proof.
  induction s as [|c s IH]; [done |]. simpl. intros H.
  rewrite get_timestamp_cons. destruct (Ascii.eqb c "_") eqn:E.
  - apply Ascii.eqb_eq in E as ->. by exists s.
  - simpl in H. destruct (IH H) as [rest Hr]. exists rest. simpl. by rewrite <- Hr.
Qed.

Lemma get_timestamp_app (t rest : string) :
  get_timestamp_from_filename (t ++ String "_" rest) = get_timestamp_from_filename t.
Proof.
  induction t as [|c t IH]; simpl.
  - by rewrite get_timestamp_cons.
  - rewrite !get_timestamp_cons, IH. done.
Qed.

(** ** The order of Python strings *)

Lemma leb_String_leb (s1 s2 : string) : PyStr.leb s1 s2 = String.leb s1 s2.
Proof.
  revert s2. induction s1 as [|c1 s1 IH]; intros [|c2 s2]; try done.
  simpl. unfold String.leb in *. simpl. unfold Ascii.compare.
  destruct (N.compare_spec (N_of_ascii c1) (N_of_ascii c2)) as [E | L | L].
  - rewrite E, N.ltb_irrefl. apply IH.
  - apply N.ltb_lt in L. by rewrite L.
  - assert ((N_of_ascii c1 <? N_of_ascii c2)%N = false) as -> by (apply N.ltb_ge; lia).
    apply N.ltb_lt in L. by rewrite L.
Qed.

Lemma le_String_le (s1 s2 : string) : PyStr.le s1 s2 <-> String.le s1 s2.
Proof.
  unfold PyStr.le, String.le. rewrite leb_String_leb. symmetry. apply Is_true_true.
Qed.

Lemma le_total : Total PyStr.le.
Proof.
  intros s1 s2. rewrite !le_String_le. apply (total String.le).
Qed.

Lemma le_trans : Transitive PyStr.le.
Proof.
  intros s1 s2 s3. rewrite !le_String_le. apply transitivity.
Qed.

Lemma le_antisym : AntiSymm (=) PyStr.le.
Proof.
  intros s1 s2. rewrite !le_String_le. apply (anti_symm String.le).
Qed.

Lemma le_refl : Reflexive PyStr.le.
Proof. intros s. rewrite le_String_le. apply reflexivity. Qed.

#[local] Existing Instances le_total le_trans le_antisym le_refl.

Lemma lt_irrefl : Irreflexive PyStr.lt.
Proof. intros s [_ H]. done. Qed.

Lemma lt_trans : Transitive PyStr.lt.
Proof.
  intros s1 s2 s3 [H12 N12] [H23 N23]. split.
  - by trans s2.
  - intros ->. apply N12. by apply (anti_symm PyStr.le).
Qed.

Lemma sorted_Permutation (l : list string) : PyStr.sorted l ≡ₚ l.
Proof. apply merge_sort_Permutation. Qed.

Lemma sorted_StronglySorted (l : list string) :
  StronglySorted PyStr.le (PyStr.sorted l).
Proof. apply (StronglySorted_merge_sort PyStr.le). Qed.

(** On distinct strings a sorted list is strictly increasing. *)
Lemma StronglySorted_le_lt (l : list string) :
  NoDup l -> StronglySorted PyStr.le l -> StronglySorted PyStr.lt l.
Proof.
  induction 1 as [|x l Hx Hl IH]; intros Hs; [constructor |].
  apply StronglySorted_inv in Hs as [Hs Hall]. constructor; [by apply IH |].
  rewrite List.Forall_forall in *. intros y Hy. split; [by apply Hall |].
  intros ->. apply Hx. by apply list_elem_of_In.
Qed.

Lemma StronglySorted_lt_le (l : list string) :
  StronglySorted PyStr.lt l -> StronglySorted PyStr.le l /\ NoDup l.
Proof.
  induction 1 as [|x l Hs [IH1 IH2] Hall]; [split; constructor |].
  rewrite List.Forall_forall in Hall. split.
  - constructor; [done |]. rewrite List.Forall_forall. intros y Hy. by apply Hall.
  - constructor; [|done]. intros Hx%list_elem_of_In. by destruct (Hall x Hx).
Qed.

(** A strictly increasing list is determined by its elements. *)
Lemma StronglySorted_lt_unique (l1 l2 : list string) :
  StronglySorted PyStr.lt l1 -> StronglySorted PyStr.lt l2 ->
  (forall k, k ∈ l1 <-> k ∈ l2) -> l1 = l2.
Proof.
  intros [S1 N1]%StronglySorted_lt_le [S2 N2]%StronglySorted_lt_le Hel.
  apply (StronglySorted_unique PyStr.le); [done | done |].
  by apply NoDup_Permutation.
Qed.

(** ** Dictionaries built by comprehension *)

Lemma dict_of_snoc {V} (key : V -> string) (xs : list V) (x : V) :
  dict_of key (xs ++ [x]) = <[key x := x]> (dict_of key xs).
Proof. unfold dict_of. by rewrite fold_left_app. Qed.

Lemma dict_of_lookup_Some {V} (key : V -> string) (xs : list V) k v :
  dict_of key xs !! k = Some v -> v ∈ xs /\ key v = k.
Proof.
  induction xs as [|x xs IH] using rev_ind.
  - unfold dict_of. simpl. by rewrite lookup_empty.
  - rewrite dict_of_snoc. destruct (decide (key x = k)) as [<- | Hne].
    + rewrite lookup_insert_eq. intros [= ->]. split; [|done].
      apply elem_of_app. right. by apply list_elem_of_singleton.
    + rewrite lookup_insert_ne by done. intros H. destruct (IH H) as [? ?].
      split; [|done]. apply elem_of_app. by left.
Qed.

Lemma dict_of_dom {V} (key : V -> string) (xs : list V) k :
  k ∈ dom (dict_of key xs) <-> k ∈ map key xs.
Proof.
  induction xs as [|x xs IH] using rev_ind.
  - unfold dict_of. simpl. rewrite dom_empty_L, elem_of_nil, elem_of_empty. tauto.
  - rewrite dict_of_snoc, dom_insert_L, map_app. simpl.
    rewrite elem_of_app, list_elem_of_singleton, elem_of_union, elem_of_singleton, IH.
    tauto.
Qed.

(** The last element with a given key is the one the dictionary keeps. *)
Lemma dict_of_last {V} (key : V -> string) (pre post : list V) (v : V) :
  (forall x, x ∈ post -> key x <> key v) ->
  dict_of key (pre ++ v :: post) !! key v = Some v.
Proof.
  induction post as [|y post IH] using rev_ind; intros Hpost.
  - rewrite dict_of_snoc. apply lookup_insert_eq.
  - replace (pre ++ v :: post ++ [y])%list with ((pre ++ v :: post) ++ [y])%list
      by (by rewrite <- List.app_assoc).
    rewrite dict_of_snoc, lookup_insert_ne.
    + apply IH. intros x Hx. apply Hpost, elem_of_app. by left.
    + apply Hpost, elem_of_app. right. by apply list_elem_of_singleton.
Qed.

(** ** Paths and globbing *)

Lemma name_join (p : Path) (c : string) : name (p // c) = c.
Proof. unfold name, path_join. simpl. by rewrite last_snoc. Qed.

Lemma path_key_join (p : Path) (c : string) :
  path_key (p // c) = get_timestamp_from_filename c.
Proof. unfold path_key. by rewrite name_join. Qed.

Lemma path_join_inj (p : Path) (c1 c2 : string) : p // c1 = p // c2 -> c1 = c2.
Proof. intros H. apply (f_equal name) in H. by rewrite !name_join in H. Qed.

Lemma path_glob_dir (fs : FS) (d : Path) (entries : list string) (pat : string) :
  fs !! d = Some (Dir entries) ->
  path_glob fs d pat = map (path_join d) (List.filter (PyStr.fnmatch pat) entries).
Proof. unfold path_glob. by intros ->. Qed.

(** Every globbed path is an entry of the directory that matches. *)
Lemma elem_of_path_glob (fs : FS) (d f : Path) (pat : string) :
  f ∈ path_glob fs d pat <->
  exists entries n, fs !! d = Some (Dir entries) /\ n ∈ entries /\
                    PyStr.fnmatch pat n = true /\ f = d // n.
Proof.
  unfold path_glob. destruct (fs !! d) as [[|entries]|] eqn:E.
  - rewrite elem_of_nil. split; [done | by intros (? & ? & ? & _)].
  - rewrite list_elem_of_In, in_map_iff. split.
    + intros (n & <- & Hn). apply filter_In in Hn as [Hn Hm].
      exists entries, n. by rewrite list_elem_of_In.
    + intros (entries' & n & [= <-] & Hn & Hm & ->). exists n. split; [done |].
      apply filter_In. by rewrite <- list_elem_of_In.
  - rewrite elem_of_nil. split; [done | by intros (? & ? & ? & _)].
Qed.

Lemma stream_keys_dir (fs : FS) (d : Path) (entries : list string) :
  fs !! d = Some (Dir entries) ->
  stream_keys fs d =
  map get_timestamp_from_filename (List.filter (PyStr.fnmatch pattern) entries).
Proof.
  intros H. unfold stream_keys. rewrite (path_glob_dir _ _ _ _ H), map_map.
  apply map_ext. intros n. apply path_key_join.
Qed.

(** ** The pair finder *)

Lemma elem_of_common_timestamps (fs : FS) (d1 d2 : Path) (k : string) :
  k ∈ common_timestamps fs d1 d2 <-> k ∈ stream_keys fs d1 /\ k ∈ stream_keys fs d2.
Proof.
  unfold common_timestamps. rewrite sorted_Permutation, elem_of_elements, elem_of_intersection.
  unfold stream_images, stream_keys. by rewrite !dict_of_dom.
Qed.

Lemma common_timestamps_NoDup (fs : FS) (d1 d2 : Path) :
  NoDup (common_timestamps fs d1 d2).
Proof. unfold common_timestamps. rewrite sorted_Permutation. apply NoDup_elements. Qed.

Lemma common_timestamps_sorted (fs : FS) (d1 d2 : Path) :
  StronglySorted PyStr.lt (common_timestamps fs d1 d2).
Proof.
  apply StronglySorted_le_lt; [apply common_timestamps_NoDup |].
  apply sorted_StronglySorted.
Qed.

Lemma paired_key (fs : FS) (d1 d2 : Path) ts p :
  paired fs d1 d2 ts p ->
  pair_key p = ts /\ path_key p.2 = ts /\
  p.1 ∈ path_glob fs d1 pattern /\ p.2 ∈ path_glob fs d2 pattern.
Proof.
  intros [H1 H2]. apply dict_of_lookup_Some in H1 as [? ?], H2 as [? ?]. done.
Qed.

Lemma paired_keys (fs : FS) (d1 d2 : Path) (l : list string) (ps : list (Path * Path)) :
  Forall2 (paired fs d1 d2) l ps -> map pair_key ps = l.
Proof.
  induction 1 as [|ts p l ps H _ IH]; simpl; [done |].
  apply paired_key in H as [-> _]. by rewrite IH.
Qed.

Lemma paired_functional (fs : FS) (d1 d2 : Path) (l : list string) ps ps' :
  Forall2 (paired fs d1 d2) l ps -> Forall2 (paired fs d1 d2) l ps' -> ps = ps'.
Proof.
  intros H. revert ps'. induction H as [|ts [a b] l ps [H1 H2] _ IH]; intros ps' H'.
  - by apply Forall2_nil_inv_l in H'.
  - apply Forall2_cons_inv_l in H' as ([a' b'] & ps'' & [H1' H2'] & Hrest & ->).
    simpl in *. rewrite H1 in H1'. rewrite H2 in H2'. injection H1' as <-.
    injection H2' as <-. by rewrite (IH _ Hrest).
Qed.

Section Finder.
Context {Model : Type}.
Implicit Types w : World Model.

Lemma bind_Ok {A B} (m : M Model A) (k : A -> M Model B) w a w' :
  m w = (Ok a, w') -> bind m k w = k a w'.
Proof. unfold bind. by intros ->. Qed.

Lemma bind_Raise {A B} (m : M Model A) (k : A -> M Model B) w e w' :
  m w = (Raise e, w') -> bind m k w = (Raise e, w').
Proof. unfold bind. by intros ->. Qed.

Lemma comprehension_getitem (d1 d2 : gmap string Path) (l : list string) w :
  (forall ts, ts ∈ l -> is_Some (d1 !! ts) /\ is_Some (d2 !! ts)) ->
  exists ps,
    comprehension (fun ts => bind (getitem d1 ts) (fun a =>
                             bind (getitem d2 ts) (fun b => ret (a, b)))) l w
    = (Ok ps, w) /\
    Forall2 (fun ts p => d1 !! ts = Some p.1 /\ d2 !! ts = Some p.2) l ps.
Proof.
  induction l as [|ts l IH]; intros Hl.
  - exists []. split; [done | constructor].
  - destruct (Hl ts) as [[a Ha] [b Hb]]; [by left |].
    destruct IH as (ps & Hrun & Hps).
    { intros ts' H'. apply Hl. by right. }
    exists ((a, b) :: ps). split.
    + assert (bind (getitem d1 ts) (fun a => bind (getitem d2 ts) (fun b => ret (a, b))) w
              = (Ok (a, b), w)) as Hhead.
      { unfold getitem. by rewrite Ha, Hb. }
      simpl. rewrite (bind_Ok _ _ _ _ _ Hhead), (bind_Ok _ _ _ _ _ Hrun). done.
    + by constructor.
Qed.

(** The pair finder returns, reads only, and pairs the two dictionaries'
    values at each common key, in the order of the sorted keys. *)
Lemma find_stereo_pairs_run (d1 d2 : Path) w :
  exists pairs,
    find_stereo_pairs d1 d2 w = (Ok pairs, w) /\
    Forall2 (paired (files w) d1 d2) (common_timestamps (files w) d1 d2) pairs.
Proof.
  destruct (comprehension_getitem (stream_images (files w) d1)
              (stream_images (files w) d2) (common_timestamps (files w) d1 d2) w)
    as (ps & Hrun & Hps).
  { intros ts Hts. unfold common_timestamps in Hts.
    rewrite sorted_Permutation, elem_of_elements, elem_of_intersection in Hts.
    by rewrite <- !elem_of_dom. }
  exists ps. split; [|done].
  unfold find_stereo_pairs.
  rewrite (bind_Ok (glob d1 pattern) _ w _ w eq_refl).
  rewrite (bind_Ok (glob d2 pattern) _ w _ w eq_refl).
  unfold stream_images, common_timestamps in Hrun.
  by rewrite (bind_Ok _ _ _ _ _ Hrun).
Qed.

End Finder.

(** ** Statements about the timestamp key *)

(** C7 (amended).  The key of a file name is the part of the name before its
    first underscore, and the whole name when it has no underscore.  For a
    matched file [<t>_undistorted.jpg] the key is [<t>] when [<t>] has no
    underscore; in general it is the key of [<t>], the part of [<t>] before
    its first underscore. *)
Theorem timestamp_key_before_first_underscore (filename t : string) :
  let key := get_timestamp_from_filename filename in
  PyStr.contains "_" key = false /\
  (PyStr.contains "_" filename = true -> exists rest, filename = key ++ String "_" rest) /\
  (PyStr.contains "_" filename = false -> key = filename) /\
  (PyStr.contains "_" t = false ->
     get_timestamp_from_filename (t ++ "_undistorted.jpg") = t) /\
  get_timestamp_from_filename (t ++ "_undistorted.jpg") = get_timestamp_from_filename t.
Proof.
  simpl. split; [apply get_timestamp_no_underscore |].
  split; [apply get_timestamp_split |].
  split; [apply get_timestamp_id |].
  change "_undistorted.jpg" with (String "_" "undistorted.jpg").
  rewrite get_timestamp_app. split; [apply get_timestamp_id | done].
Qed.

Lemma timestamp_key_before_first_underscore_witness :
  PyStr.contains "_" "44335766666666" = false /\
  get_timestamp_from_filename ("44335766666666" ++ "_undistorted.jpg") = "44335766666666".
Proof.
  split; [reflexivity |].
  destruct (timestamp_key_before_first_underscore "44335766666666_undistorted.jpg"
              "44335766666666") as (_ & _ & _ & H & _).
  apply H. reflexivity.
Defined.

(** C7 as stated fails: [a_b_undistorted.jpg] matches the pattern and its
    key is [a], not [a_b]. *)
Lemma timestamp_key_counterexample :
  PyStr.fnmatch pattern ("a_b" ++ "_undistorted.jpg") = true /\
  get_timestamp_from_filename ("a_b" ++ "_undistorted.jpg") = "a" /\
  get_timestamp_from_filename ("a_b" ++ "_undistorted.jpg") <> "a_b".
Proof. split; [reflexivity | split; [reflexivity | discriminate]]. Qed.

(** ** Statements about the pair finder *)

Lemma paired_elem_r (fs : FS) (d1 d2 : Path) l ps p :
  Forall2 (paired fs d1 d2) l ps -> p ∈ ps -> exists ts, ts ∈ l /\ paired fs d1 d2 ts p.
Proof.
  intros HF (i & Hi)%list_elem_of_lookup.
  destruct (Forall2_lookup_r _ _ _ _ _ HF Hi) as (ts & Hts & Hp).
  exists ts. split; [|done]. apply list_elem_of_lookup. by exists i.
Qed.

Lemma paired_elem_l (fs : FS) (d1 d2 : Path) l ps ts :
  Forall2 (paired fs d1 d2) l ps -> ts ∈ l -> exists p, p ∈ ps /\ paired fs d1 d2 ts p.
Proof.
  intros HF (i & Hi)%list_elem_of_lookup.
  destruct (Forall2_lookup_l _ _ _ _ _ HF Hi) as (p & Hp & Hts).
  exists p. split; [|done]. apply list_elem_of_lookup. by exists i.
Qed.

Lemma stream_images_lookup_dir (fs : FS) (d : Path) (entries : list string) ts f :
  fs !! d = Some (Dir entries) ->
  stream_images fs d !! ts = Some f ->
  exists n, f = d // n /\ n ∈ List.filter (PyStr.fnmatch pattern) entries /\
            get_timestamp_from_filename n = ts.
Proof.
  intros Hd [Hf Hk]%dict_of_lookup_Some.
  apply elem_of_path_glob in Hf as (entries' & n & Hd' & Hn & Hm & ->).
  rewrite Hd in Hd'. injection Hd' as <-. exists n. split; [done |]. split.
  - apply list_elem_of_In, filter_In. by rewrite <- list_elem_of_In.
  - by rewrite path_key_join in Hk.
Qed.

Lemma stream_keys_Permutation (fs : FS) (d : Path) (entries matched : list string) :
  fs !! d = Some (Dir entries) ->
  List.filter (PyStr.fnmatch pattern) entries ≡ₚ matched ->
  stream_keys fs d ≡ₚ map get_timestamp_from_filename matched.
Proof.
  intros Hd Hp. rewrite (stream_keys_dir _ _ _ Hd). by apply Permutation_map.
Qed.

(** C1.  For every two directories the pair finder returns, and what it
    returns has exactly one pair for each key that occurs both among the
    matching files of the first and among those of the second: the keys of
    the pairs are pairwise distinct and are exactly the common keys; the left
    image of a pair is a matching file of the first directory, the right
    image one of the second, both with the pair's key.  In particular, when
    the matching files are [a_undistorted.jpg], [b_undistorted.jpg] in the
    first directory and [a_undistorted.jpg], [c_undistorted.jpg] in the
    second (in any listing order), the result is the single pair of key [a]. *)
Theorem find_stereo_pairs_one_pair_per_common_key
    {Model : Type} (w : World Model) (d1 d2 : Path) :
  exists pairs,
    find_stereo_pairs d1 d2 w = (Ok pairs, w) /\
    NoDup (map pair_key pairs) /\
    (forall k, k ∈ map pair_key pairs <->
               k ∈ stream_keys (files w) d1 /\ k ∈ stream_keys (files w) d2) /\
    (forall p, p ∈ pairs ->
               p.1 ∈ path_glob (files w) d1 pattern /\
               p.2 ∈ path_glob (files w) d2 pattern /\
               path_key p.1 = pair_key p /\ path_key p.2 = pair_key p) /\
    (forall e1 e2,
       files w !! d1 = Some (Dir e1) -> files w !! d2 = Some (Dir e2) ->
       List.filter (PyStr.fnmatch pattern) e1 ≡ₚ ["a_undistorted.jpg"; "b_undistorted.jpg"] ->
       List.filter (PyStr.fnmatch pattern) e2 ≡ₚ ["a_undistorted.jpg"; "c_undistorted.jpg"] ->
       pairs = [(d1 // "a_undistorted.jpg", d2 // "a_undistorted.jpg")] /\
       map pair_key pairs = ["a"]).
Proof.
  destruct (find_stereo_pairs_run d1 d2 w) as (pairs & Hrun & HF).
  pose proof (paired_keys _ _ _ _ _ HF) as Hkeys.
  exists pairs. split; [done |]. rewrite Hkeys.
  split; [apply common_timestamps_NoDup |].
  split; [apply elem_of_common_timestamps |]. split.
  - intros p Hp. destruct (paired_elem_r _ _ _ _ _ _ HF Hp) as (ts & _ & Hts).
    apply paired_key in Hts as (Hk & Hk2 & ? & ?). unfold pair_key in *.
    by rewrite Hk, Hk2.
  - intros e1 e2 Hd1 Hd2 Hp1 Hp2.
    pose proof (stream_keys_Permutation _ _ _ _ Hd1 Hp1) as Hk1.
    pose proof (stream_keys_Permutation _ _ _ _ Hd2 Hp2) as Hk2.
    change (map get_timestamp_from_filename _) with ["a"; "b"] in Hk1.
    change (map get_timestamp_from_filename _) with ["a"; "c"] in Hk2.
    assert (common_timestamps (files w) d1 d2 = ["a"]) as Hc.
    { apply StronglySorted_lt_unique; [apply common_timestamps_sorted | |].
      - repeat constructor.
      - intros k. rewrite elem_of_common_timestamps, Hk1, Hk2.
        rewrite !elem_of_cons, !elem_of_nil. intuition congruence. }
    split; [|done]. rewrite Hc in HF.
    apply Forall2_cons_inv_l in HF as ([l r] & ps & [Hl Hr] & Hnil & ->).
    apply Forall2_nil_inv_l in Hnil as ->. simpl in Hl, Hr.
    destruct (stream_images_lookup_dir _ _ _ _ _ Hd1 Hl) as (n1 & -> & Hn1 & Hg1).
    destruct (stream_images_lookup_dir _ _ _ _ _ Hd2 Hr) as (n2 & -> & Hn2 & Hg2).
    rewrite Hp1 in Hn1. rewrite Hp2 in Hn2.
    rewrite !elem_of_cons, elem_of_nil in Hn1, Hn2.
    destruct Hn1 as [-> | [-> | []]]; [| by vm_compute in Hg1].
    destruct Hn2 as [-> | [-> | []]]; [| by vm_compute in Hg2].
    done.
Qed.

Lemma find_stereo_pairs_one_pair_per_common_key_witness :
  find_stereo_pairs (stream1 sample_data) (stream2 sample_data)
    (sample_world ["b_undistorted.jpg"; "notes.txt"; "a_undistorted.jpg"]
                  ["a_undistorted.jpg"; "c_undistorted.jpg"])
  = (Ok [(stream1 sample_data // "a_undistorted.jpg",
          stream2 sample_data // "a_undistorted.jpg")],
     sample_world ["b_undistorted.jpg"; "notes.txt"; "a_undistorted.jpg"]
                  ["a_undistorted.jpg"; "c_undistorted.jpg"]).
Proof.
  destruct (find_stereo_pairs_one_pair_per_common_key
              (sample_world ["b_undistorted.jpg"; "notes.txt"; "a_undistorted.jpg"]
                            ["a_undistorted.jpg"; "c_undistorted.jpg"])
              (stream1 sample_data) (stream2 sample_data))
    as (pairs & Hrun & _ & _ & _ & Hex).
  destruct (Hex ["b_undistorted.jpg"; "notes.txt"; "a_undistorted.jpg"]
                ["a_undistorted.jpg"; "c_undistorted.jpg"]) as [Hpairs _].
  - reflexivity.
  - reflexivity.
  - vm_compute. apply perm_swap.
  - vm_compute. reflexivity.
  - rewrite Hrun, Hpairs. reflexivity.
Defined.

(** The order of Python strings is lexicographic on character codes. *)
Lemma le_lexicographic (c1 c2 : ascii) (s1 s2 : string) :
  PyStr.le (String c1 s1) (String c2 s2) <->
  (N_of_ascii c1 < N_of_ascii c2)%N \/ (c1 = c2 /\ PyStr.le s1 s2).
Proof.
  unfold PyStr.le. simpl.
  destruct (N.ltb_spec (N_of_ascii c1) (N_of_ascii c2)) as [L | G].
  - split; [by left | done].
  - destruct (N.ltb_spec (N_of_ascii c2) (N_of_ascii c1)) as [L' | G'].
    + split; [done |]. intros [? | [-> _]]; lia.
    + split.
      * intros H. right. split; [|done].
        rewrite <- (ascii_N_embedding c1), <- (ascii_N_embedding c2).
        f_equal. lia.
      * intros [? | [_ H]]; [lia | done].
Qed.

(** C2.  For every two directories the pairs come in strictly ascending
    order of their keys compared as strings (character by character), not as
    numbers: when the common keys are [10] and [2] the pairs come in the order
    [10], [2]. *)
Theorem find_stereo_pairs_sorted_by_string_key
    {Model : Type} (w : World Model) (d1 d2 : Path) :
  exists pairs,
    find_stereo_pairs d1 d2 w = (Ok pairs, w) /\
    StronglySorted PyStr.lt (map pair_key pairs) /\
    ((forall k, k ∈ stream_keys (files w) d1 /\ k ∈ stream_keys (files w) d2 <->
                k = "10" \/ k = "2") ->
     map pair_key pairs = ["10"; "2"] /\ map pair_key pairs <> ["2"; "10"]).
Proof.
  destruct (find_stereo_pairs_run d1 d2 w) as (pairs & Hrun & HF).
  exists pairs. split; [done |]. rewrite (paired_keys _ _ _ _ _ HF).
  split; [apply common_timestamps_sorted |]. intros Hk.
  assert (common_timestamps (files w) d1 d2 = ["10"; "2"]) as ->.
  { apply StronglySorted_lt_unique; [apply common_timestamps_sorted | |].
    - repeat constructor; done.
    - intros k. rewrite elem_of_common_timestamps, Hk.
      rewrite !elem_of_cons, !elem_of_nil. intuition congruence. }
  done.
Qed.

Lemma find_stereo_pairs_sorted_by_string_key_witness :
  exists pairs,
    find_stereo_pairs (stream1 sample_data) (stream2 sample_data)
      (sample_world ["2_undistorted.jpg"; "10_undistorted.jpg"; "7_undistorted.jpg"]
                    ["2_undistorted.jpg"; "10_undistorted.jpg"])
    = (Ok pairs,
       sample_world ["2_undistorted.jpg"; "10_undistorted.jpg"; "7_undistorted.jpg"]
                    ["2_undistorted.jpg"; "10_undistorted.jpg"]) /\
    map pair_key pairs = ["10"; "2"].
Proof.
  destruct (find_stereo_pairs_sorted_by_string_key
              (sample_world ["2_undistorted.jpg"; "10_undistorted.jpg"; "7_undistorted.jpg"]
                            ["2_undistorted.jpg"; "10_undistorted.jpg"])
              (stream1 sample_data) (stream2 sample_data))
    as (pairs & Hrun & _ & Hex).
  exists pairs. split; [exact Hrun |]. apply Hex.
  intros k.
  change (stream_keys _ (stream1 sample_data)) with ["2"; "10"; "7"].
  change (stream_keys _ (stream2 sample_data)) with ["2"; "10"].
  rewrite !elem_of_cons, !elem_of_nil. intuition congruence.
Defined.

Lemma path_glob_ext (fs1 fs2 : FS) (d : Path) (pat : string) :
  fs1 !! d = fs2 !! d -> path_glob fs1 d pat = path_glob fs2 d pat.
Proof. unfold path_glob. by intros ->. Qed.

(** C9.  The pair finder leaves the world as it found it (no file written,
    nothing printed, no call made), and its result is a function of the two
    directory listings: two invocations, in any two worlds where each of the
    two directories has the same listing, return the same list of pairs. *)
Theorem find_stereo_pairs_pure
    {Model : Type} (w1 w2 : World Model) (d1 d2 : Path) :
  snd (find_stereo_pairs d1 d2 w1) = w1 /\
  (files w1 !! d1 = files w2 !! d1 -> files w1 !! d2 = files w2 !! d2 ->
   fst (find_stereo_pairs d1 d2 w1) = fst (find_stereo_pairs d1 d2 w2)).
Proof.
  destruct (find_stereo_pairs_run d1 d2 w1) as (ps1 & Hrun1 & HF1).
  destruct (find_stereo_pairs_run d1 d2 w2) as (ps2 & Hrun2 & HF2).
  rewrite Hrun1, Hrun2. simpl. split; [done |]. intros H1 H2.
  unfold common_timestamps, paired, stream_images in HF1, HF2.
  rewrite (path_glob_ext _ _ _ pattern H1), (path_glob_ext _ _ _ pattern H2) in HF1.
  f_equal. revert HF1 HF2. apply (paired_functional (files w2) d1 d2).
Qed.

Lemma find_stereo_pairs_pure_witness :
  fst (find_stereo_pairs (stream1 sample_data) (stream2 sample_data)
         (sample_world ["a_undistorted.jpg"] ["a_undistorted.jpg"]))
  = fst (find_stereo_pairs (stream1 sample_data) (stream2 sample_data)
           ({| files := <[sample_data // "depth_output" := Dir []]>
                          (sample_files ["a_undistorted.jpg"] ["a_undistorted.jpg"]);
               trace := [EPrint "earlier output"] |} : World unit)).
Proof.
  apply find_stereo_pairs_pure; reflexivity.
Defined.

(** ** Duplicate keys *)

Lemma filter_fnmatch_app (pat : string) (l1 l2 : list string) :
  List.filter (PyStr.fnmatch pat) (l1 ++ l2) =
  (List.filter (PyStr.fnmatch pat) l1 ++ List.filter (PyStr.fnmatch pat) l2)%list.
Proof. apply List.filter_app. Qed.

(** The dictionary of a directory keeps, for a key, the last matching entry
    with that key. *)
Lemma stream_images_last (fs : FS) (d : Path) (pre post : list string) (f : string) :
  fs !! d = Some (Dir (pre ++ f :: post)) ->
  PyStr.fnmatch pattern f = true ->
  (forall n, n ∈ post -> PyStr.fnmatch pattern n = true ->
             get_timestamp_from_filename n <> get_timestamp_from_filename f) ->
  stream_images fs d !! get_timestamp_from_filename f = Some (d // f).
Proof.
  intros Hd Hf Hpost. unfold stream_images.
  rewrite (path_glob_dir _ _ _ _ Hd), filter_fnmatch_app. cbn [List.filter]. rewrite Hf.
  rewrite map_app. cbn [map]. rewrite <- (path_key_join d f). apply dict_of_last.
  intros x Hx. apply list_elem_of_In, in_map_iff in Hx as (n & <- & Hn).
  apply filter_In in Hn as [Hn Hm]. rewrite !path_key_join.
  apply Hpost; [by apply list_elem_of_In | done].
Qed.

Lemma NoDup_map_inj_on {A B} (f : A -> B) (l : list A) (x y : A) :
  NoDup (map f l) -> x ∈ l -> y ∈ l -> f x = f y -> x = y.
Proof.
  induction l as [|a l IH]; simpl; intros Hnd Hx Hy Hf.
  - by apply elem_of_nil in Hx.
  - apply NoDup_cons in Hnd as [Ha Hnd].
    apply elem_of_cons in Hx as [-> | Hx]; apply elem_of_cons in Hy as [-> | Hy].
    + done.
    + exfalso. apply Ha. rewrite Hf. apply list_elem_of_In, in_map.
      by apply list_elem_of_In.
    + exfalso. apply Ha. rewrite <- Hf. apply list_elem_of_In, in_map.
      by apply list_elem_of_In.
    + by apply IH.
Qed.

(** C8 (amended).  Keys need not be unique in a directory and no error is
    raised when they are not.  When a stream directory lists two different
    matching files with the same key, the first before the second, and no
    matching file after the second has that key, the pair finder returns,
    the earlier file is the image of that stream in no pair, and the later
    file is the image of that stream in a pair exactly when the key also
    occurs in the other directory, and then in one pair only.  [side] says
    which of the two directories holds the duplicates. *)
Theorem duplicate_key_last_file_wins
    {Model : Type} (w : World Model) (d1 d2 : Path) (side : bool)
    (pre mid post : list string) (f1 f2 : string) :
  let d := if side then d1 else d2 in
  let other := if side then d2 else d1 in
  let image (p : Path * Path) := if side then p.1 else p.2 in
  files w !! d = Some (Dir (pre ++ f1 :: mid ++ f2 :: post)) ->
  PyStr.fnmatch pattern f1 = true ->
  PyStr.fnmatch pattern f2 = true ->
  f1 <> f2 ->
  get_timestamp_from_filename f1 = get_timestamp_from_filename f2 ->
  (forall n, n ∈ post -> PyStr.fnmatch pattern n = true ->
             get_timestamp_from_filename n <> get_timestamp_from_filename f2) ->
  exists pairs,
    find_stereo_pairs d1 d2 w = (Ok pairs, w) /\
    (forall p, p ∈ pairs -> image p <> d // f1) /\
    ((exists p, p ∈ pairs /\ image p = d // f2) <->
     get_timestamp_from_filename f2 ∈ stream_keys (files w) other) /\
    (forall p q, p ∈ pairs -> q ∈ pairs ->
                 image p = d // f2 -> image q = d // f2 -> p = q).
Proof.
  intros d other image Hd Hm1 Hm2 Hne Hkey Hpost.
  destruct (find_stereo_pairs_run d1 d2 w) as (pairs & Hrun & HF).
  pose proof (paired_keys _ _ _ _ _ HF) as Hkeys.
  assert (stream_images (files w) d !! get_timestamp_from_filename f2 = Some (d // f2))
    as Hlast.
  { apply (stream_images_last _ _ (pre ++ f1 :: mid) post); [|done..].
    by rewrite <- List.app_assoc. }
  assert (forall ts p, paired (files w) d1 d2 ts p ->
            stream_images (files w) d !! ts = Some (image p) /\ path_key (image p) = ts)
    as Himg.
  { intros ts p Hp. pose proof (paired_key _ _ _ _ _ Hp) as (? & ? & _).
    destruct Hp as [? ?]. unfold d, image. by destruct side. }
  exists pairs. split; [done |]. split; [|split].
  - intros p Hp E.
    destruct (paired_elem_r _ _ _ _ _ _ HF Hp) as (ts & _ & Hts).
    destruct (Himg _ _ Hts) as [Hlook Hk]. rewrite E, path_key_join in Hk.
    rewrite <- Hk, Hkey, Hlast, E in Hlook. apply (inj Some) in Hlook.
    apply path_join_inj in Hlook. by apply Hne.
  - split.
    + intros (p & Hp & E).
      destruct (paired_elem_r _ _ _ _ _ _ HF Hp) as (ts & Hts & Hpd).
      destruct (Himg _ _ Hpd) as [_ Hk]. rewrite E, path_key_join in Hk. subst ts.
      apply elem_of_common_timestamps in Hts. unfold other. destruct side; tauto.
    + intros Hother.
      assert (get_timestamp_from_filename f2 ∈ stream_keys (files w) d) as Hin.
      { unfold stream_keys. apply dict_of_dom, elem_of_dom. by eexists. }
      assert (get_timestamp_from_filename f2 ∈ common_timestamps (files w) d1 d2) as Hc.
      { apply elem_of_common_timestamps. unfold d in Hin. unfold other in Hother.
        destruct side; tauto. }
      destruct (paired_elem_l _ _ _ _ _ _ HF Hc) as (p & Hp & Hpd).
      exists p. split; [done |]. destruct (Himg _ _ Hpd) as [Hlook _].
      rewrite Hlast in Hlook. apply (inj Some) in Hlook. done.
  - intros p q Hp Hq Ep Eq.
    apply (NoDup_map_inj_on pair_key pairs); [| done | done |].
    + rewrite Hkeys. apply common_timestamps_NoDup.
    + destruct (paired_elem_r _ _ _ _ _ _ HF Hp) as (tp & _ & Htp).
      destruct (paired_elem_r _ _ _ _ _ _ HF Hq) as (tq & _ & Htq).
      destruct (Himg _ _ Htp) as [_ Hkp]. destruct (Himg _ _ Htq) as [_ Hkq].
      apply paired_key in Htp as [-> _]. apply paired_key in Htq as [-> _].
      by rewrite <- Hkp, <- Hkq, Ep, Eq.
Qed.

Lemma duplicate_key_last_file_wins_witness :
  exists pairs,
    find_stereo_pairs (stream1 sample_data) (stream2 sample_data)
      (sample_world ["a_1_undistorted.jpg"; "a_2_undistorted.jpg"] ["a_undistorted.jpg"])
    = (Ok pairs,
       sample_world ["a_1_undistorted.jpg"; "a_2_undistorted.jpg"] ["a_undistorted.jpg"]) /\
    (forall p, p ∈ pairs -> p.1 <> stream1 sample_data // "a_1_undistorted.jpg") /\
    (exists p, p ∈ pairs /\ p.1 = stream1 sample_data // "a_2_undistorted.jpg").
Proof.
  destruct (duplicate_key_last_file_wins
              (sample_world ["a_1_undistorted.jpg"; "a_2_undistorted.jpg"]
                            ["a_undistorted.jpg"])
              (stream1 sample_data) (stream2 sample_data) true
              [] [] [] "a_1_undistorted.jpg" "a_2_undistorted.jpg")
    as (pairs & Hrun & Hnot & Hiff & _).
  - reflexivity.
  - reflexivity.
  - reflexivity.
  - discriminate.
  - reflexivity.
  - intros n Hn. by apply elem_of_nil in Hn.
  - exists pairs. split; [exact Hrun |]. split; [exact Hnot |].
    apply Hiff. vm_compute. left.
Defined.

(** C8 as stated fails: the first directory lists two matching files of key
    [a] and the second directory has no file of that key; the pair finder
    returns no pair, so neither of the two files appears in the result. *)
Lemma duplicate_key_counterexample :
  let w := sample_world ["a_1_undistorted.jpg"; "a_2_undistorted.jpg"]
                        ["b_undistorted.jpg"] in
  files w !! stream1 sample_data
    = Some (Dir ["a_1_undistorted.jpg"; "a_2_undistorted.jpg"]) /\
  PyStr.fnmatch pattern "a_1_undistorted.jpg" = true /\
  PyStr.fnmatch pattern "a_2_undistorted.jpg" = true /\
  get_timestamp_from_filename "a_1_undistorted.jpg" = "a" /\
  get_timestamp_from_filename "a_2_undistorted.jpg" = "a" /\
  exists pairs,
    find_stereo_pairs (stream1 sample_data) (stream2 sample_data) w = (Ok pairs, w) /\
    pairs = [] /\
    ~ (exists p, p ∈ pairs /\
                 (p.1 = stream1 sample_data // "a_1_undistorted.jpg" \/
                  p.1 = stream1 sample_data // "a_2_undistorted.jpg")).
Proof.
  repeat (split; [reflexivity |]).
  exists []. split; [reflexivity |]. split; [reflexivity |].
  intros (p & Hp & _). by apply elem_of_nil in Hp.
Qed.

(** ** The processor *)

Lemma path_exists_true (fs : FS) (p : Path) : path_exists fs p = true <-> is_Some (fs !! p).
Proof.
  unfold path_exists. destruct (fs !! p); split; done.
Qed.

Lemma path_exists_false (fs : FS) (p : Path) : path_exists fs p = false <-> fs !! p = None.
Proof. unfold path_exists. by destruct (fs !! p). Qed.

Lemma join_snoc (ps : list string) (c : string) :
  ps <> [] -> PyStr.join "/" (ps ++ [c]) = PyStr.join "/" ps ++ "/" ++ c.
Proof.
  induction ps as [|x ps IH]; [done |]. intros _.
  destruct ps as [|y ps]; [done |].
  change (PyStr.join "/" ((x :: y :: ps) ++ [c]))
    with (x ++ "/" ++ PyStr.join "/" ((y :: ps) ++ [c])).
  rewrite IH by done.
  change (PyStr.join "/" (x :: y :: ps)) with (x ++ "/" ++ PyStr.join "/" (y :: ps)).
  by rewrite !PyStrFacts.app_assoc.
Qed.

Lemma str_parts (p : Path) :
  parts p <> [] -> str p = (if root p then "/" else "") ++ PyStr.join "/" (parts p).
Proof. unfold str. by destruct (root p), (parts p). Qed.

(** [str(p / c)] is [str(p)], a slash and [c], for a path that has
    components. *)
Lemma str_join (p : Path) (c : string) :
  parts p <> [] -> str (p // c) = str p ++ "/" ++ c.
Proof.
  intros Hp. rewrite (str_parts p Hp), (str_parts (p // c)).
  - unfold path_join. cbn [root parts]. rewrite join_snoc by done.
    by rewrite PyStrFacts.app_assoc.
  - unfold path_join. cbn [parts]. by destruct (parts p).
Qed.

Section Processor.
Context {Model : Type} (env : Env Model).
Implicit Types w : World Model.

Lemma process_pair_run (m : Model) (out : Path) (fmt : string) (p : Path * Path) w :
  process_pair env m out fmt p w =
  (fst (env_inference env m [str p.1; str p.2]
          (str (out // ("pair_" ++ path_key p.1))) fmt (files w)),
   {| files := snd (env_inference env m [str p.1; str p.2]
                      (str (out // ("pair_" ++ path_key p.1))) fmt (files w));
      trace := (trace w ++ [call_of m out fmt p])%list |}).
Proof.
  destruct p as [l r]. unfold process_pair, inference, call_of, pair_key. simpl.
  by destruct (env_inference env m _ _ fmt (files w)).
Qed.

(** The loop calls the model for the pairs in order and stops at the first
    call that raises. *)
Lemma for_process_pair (m : Model) (out : Path) (fmt : string)
    (pairs : list (Path * Path)) w :
  exists k,
    k <= length pairs /\
    trace (snd (for_ pairs (process_pair env m out fmt) w))
      = (trace w ++ map (call_of m out fmt) (take k pairs))%list /\
    ((fst (for_ pairs (process_pair env m out fmt) w) = Ok tt /\ k = length pairs) \/
     (exists e, fst (for_ pairs (process_pair env m out fmt) w) = Raise e /\ 1 <= k)).
Proof.
  revert w. induction pairs as [|p ps IH]; intros w.
  - exists 0. simpl. rewrite List.app_nil_r. split; [done |]. split; [done |]. by left.
  - simpl. unfold bind. rewrite process_pair_run.
    destruct (fst (env_inference env m _ _ fmt (files w))) as [[]|e].
    + destruct (IH {| files := snd (env_inference env m [str p.1; str p.2]
                                      (str (out // ("pair_" ++ path_key p.1))) fmt (files w));
                      trace := (trace w ++ [call_of m out fmt p])%list |})
        as (k & Hk & Htr & Hres).
      exists (S k). split; [simpl; lia |]. split.
      * rewrite Htr. simpl. by rewrite <- List.app_assoc.
      * destruct Hres as [[? ->] | (e & ? & ?)]; [by left | right].
        exists e. split; [done | lia].
    + exists 1. split; [simpl; lia |]. split; [by destruct ps |].
      right. by exists e.
Qed.

(** A loop over a list in two parts: the second part runs only when the
    first has returned. *)
Lemma for_app {A} (l1 l2 : list A) (body : A -> M Model unit) w :
  for_ (l1 ++ l2) body w =
  match for_ l1 body w with
  | (Ok _, w1) => for_ l2 body w1
  | (Raise e, w1) => (Raise e, w1)
  end.
Proof.
  revert w. induction l1 as [|x l1 IH]; intros w; [done |].
  simpl. unfold bind. destruct (body x w) as [[[]|e] w1]; [apply IH | done].
Qed.

(** A loop that returns has called the model for every pair. *)
Lemma for_process_pair_returns (m : Model) (out : Path) (fmt : string)
    (pairs : list (Path * Path)) w w' :
  for_ pairs (process_pair env m out fmt) w = (Ok tt, w') ->
  trace w' = (trace w ++ map (call_of m out fmt) pairs)%list.
Proof.
  intros Hrun.
  destruct (for_process_pair m out fmt pairs w) as (k & _ & Htr & Hres).
  rewrite Hrun in Htr, Hres. simpl in Htr, Hres.
  destruct Hres as [[_ ->] | (e & ? & _)]; [|done].
  by rewrite firstn_all in Htr.
Qed.

(** The call that raises ends the loop: the pairs after it get no call. *)
Lemma for_process_pair_raises (m : Model) (out : Path) (fmt : string)
    (pre post : list (Path * Path)) (p : Path * Path) w w1 (e : exn) :
  for_ pre (process_pair env m out fmt) w = (Ok tt, w1) ->
  fst (env_inference env m [str p.1; str p.2]
         (str (out // ("pair_" ++ path_key p.1))) fmt (files w1)) = Raise e ->
  fst (for_ (pre ++ p :: post) (process_pair env m out fmt) w) = Raise e /\
  trace (snd (for_ (pre ++ p :: post) (process_pair env m out fmt) w))
    = (trace w ++ map (call_of m out fmt) (pre ++ [p]))%list.
Proof.
  intros Hpre Hinf. rewrite for_app, Hpre. simpl. unfold bind.
  rewrite process_pair_run, Hinf. simpl. split; [done |].
  rewrite (for_process_pair_returns _ _ _ _ _ _ Hpre), map_app.
  by rewrite <- List.app_assoc.
Qed.

(** Every loop either returns or stops at a first call that raises. *)
Lemma for_process_pair_cases (m : Model) (out : Path) (fmt : string)
    (pairs : list (Path * Path)) w :
  (exists w', for_ pairs (process_pair env m out fmt) w = (Ok tt, w')) \/
  (exists pre p post w1 e,
     pairs = (pre ++ p :: post)%list /\
     for_ pre (process_pair env m out fmt) w = (Ok tt, w1) /\
     fst (env_inference env m [str p.1; str p.2]
            (str (out // ("pair_" ++ path_key p.1))) fmt (files w1)) = Raise e).
Proof.
  revert w. induction pairs as [|p ps IH]; intros w; [left; by exists w |].
  destruct (fst (env_inference env m [str p.1; str p.2]
                   (str (out // ("pair_" ++ path_key p.1))) fmt (files w)))
    as [[]|e] eqn:E.
  - set (w1 := {| files := snd (env_inference env m [str p.1; str p.2]
                                  (str (out // ("pair_" ++ path_key p.1))) fmt (files w));
                  trace := (trace w ++ [call_of m out fmt p])%list |}).
    assert (forall l, for_ (p :: l) (process_pair env m out fmt) w
                      = for_ l (process_pair env m out fmt) w1) as Hstep.
    { intros l. simpl. unfold bind. by rewrite process_pair_run, E. }
    destruct (IH w1) as [[w' Hok] | (pre & q & post & w2 & e & -> & Hpre & Hq)].
    + left. exists w'. by rewrite Hstep.
    + right. exists (p :: pre), q, post, w2, e. by rewrite Hstep.
  - right. by exists [], p, ps, w, e.
Qed.

Lemma find_stereo_pairs_empty (d1 d2 : Path) w pairs :
  find_stereo_pairs d1 d2 w = (Ok pairs, w) ->
  (pairs = [] <->
   forall k, ~ (k ∈ stream_keys (files w) d1 /\ k ∈ stream_keys (files w) d2)).
Proof.
  intros Hrun. destruct (find_stereo_pairs_run d1 d2 w) as (pairs' & Hrun' & HF).
  rewrite Hrun in Hrun'. injection Hrun' as <-.
  pose proof (paired_keys _ _ _ _ _ HF) as Hkeys. split.
  - intros -> k Hk. apply elem_of_common_timestamps in Hk.
    rewrite <- Hkeys in Hk. by apply elem_of_nil in Hk.
  - intros Hnone. assert (common_timestamps (files w) d1 d2 = []) as Hc.
    { apply elem_of_nil_inv. intros k Hk. apply (Hnone k).
      by apply elem_of_common_timestamps. }
    rewrite Hc in Hkeys. by destruct pairs.
Qed.

(** What [process_stereo_pairs] does once both directories exist. *)
Lemma process_stereo_pairs_found (data out : Path) (model_dir fmt device : string)
    w (pairs : list (Path * Path)) :
  is_Some (files w !! stream1 data) -> is_Some (files w !! stream2 data) ->
  find_stereo_pairs (stream1 data) (stream2 data) w = (Ok pairs, w) ->
  process_stereo_pairs env data out model_dir fmt device w =
  match pairs with
  | [] => (Ok tt, {| files := files w;
                     trace := (trace w ++ [EPrint "Found 0 stereo pairs";
                                           EPrint "No matching pairs found!"])%list |})
  | _ :: _ =>
      let tr := (trace w ++ header (length pairs) model_dir)%list in
      match env_from_pretrained env model_dir (files w) with
      | (Raise e, fs1) => (Raise e, {| files := fs1; trace := tr |})
      | (Ok m0, fs1) =>
          match env_to env m0 device fs1 with
          | (Raise e, fs2) =>
              (Raise e, {| files := fs2; trace := (tr ++ [ETo m0 device])%list |})
          | (Ok m, fs2) =>
              match env_mkdir env out fs2 with
              | (Raise e, fs3) =>
                  (Raise e, {| files := fs3;
                               trace := (tr ++ [ETo m0 device; EMkdir out])%list |})
              | (Ok _, fs3) =>
                  for_ pairs (process_pair env m out fmt)
                    {| files := fs3;
                       trace := (tr ++ [ETo m0 device; EMkdir out])%list |}
              end
          end
      end
  end.
Proof.
  intros H1%path_exists_true H2%path_exists_true Hfind.
  unfold process_stereo_pairs. fold (stream1 data) (stream2 data).
  rewrite (bind_Ok (exists_ (stream1 data)) _ w true w)
    by (unfold exists_; by rewrite H1).
  cbn [negb]. cbv iota.
  rewrite (bind_Ok (exists_ (stream2 data)) _ w true w)
    by (unfold exists_; by rewrite H2).
  cbn [negb]. cbv iota.
  rewrite (bind_Ok _ _ _ _ _ Hfind).
  destruct pairs as [|p ps].
  - unfold bind, print, emit. simpl. by rewrite <- List.app_assoc.
  - unfold bind, print, emit, from_pretrained, to, mkdir, header. cbn [files trace fst snd].
    rewrite <- !List.app_assoc. cbn [app].
    destruct (env_from_pretrained env model_dir (files w)) as [[m0|e] fs1]; [|done].
    cbn [files trace].
    destruct (env_to env m0 device fs1) as [[m|e] fs2]; cbn [files trace].
    + destruct (env_mkdir env out fs2) as [[[]|e] fs3].
      * by rewrite <- !List.app_assoc.
      * by rewrite <- !List.app_assoc.
    + by rewrite <- !List.app_assoc.
Qed.

End Processor.

(** ** Counting events *)

Lemma count_app {Model} (f : Event Model -> bool) (l1 l2 : list (Event Model)) :
  count f (l1 ++ l2) = count f l1 + count f l2.
Proof. unfold count. by rewrite List.filter_app, length_app. Qed.

Lemma filter_inference_calls {Model} (m : Model) (out : Path) (fmt : string)
    (ps : list (Path * Path)) :
  List.filter is_inference (map (call_of m out fmt) ps) = map (call_of m out fmt) ps.
Proof. induction ps as [|p ps IH]; simpl; [done | by rewrite IH]. Qed.

Lemma count_inference_calls {Model} (m : Model) (out : Path) (fmt : string)
    (ps : list (Path * Path)) :
  count is_inference (map (call_of m out fmt) ps) = length ps.
Proof. unfold count. by rewrite filter_inference_calls, length_map. Qed.

Lemma count_load_calls {Model} (m : Model) (out : Path) (fmt : string)
    (ps : list (Path * Path)) :
  count is_load (map (call_of m out fmt) ps) = 0.
Proof. induction ps as [|p ps IH]; [done | exact IH]. Qed.

Lemma count_mkdir_calls {Model} (m : Model) (out : Path) (fmt : string)
    (ps : list (Path * Path)) :
  count is_mkdir (map (call_of m out fmt) ps) = 0.
Proof. induction ps as [|p ps IH]; [done | exact IH]. Qed.

(** ** Statements about a whole run *)

Section Run.
Context {Model : Type} (env : Env Model).
Implicit Types w : World Model.

(** A run that gets to the loop: the calls are those of the first [k]
    pairs. *)
Lemma process_stereo_pairs_loop (data out : Path) (model_dir fmt device : string)
    w (pairs : list (Path * Path)) (m0 m : Model) (fs1 fs2 fs3 : FS) :
  is_Some (files w !! stream1 data) -> is_Some (files w !! stream2 data) ->
  find_stereo_pairs (stream1 data) (stream2 data) w = (Ok pairs, w) ->
  pairs <> [] ->
  env_from_pretrained env model_dir (files w) = (Ok m0, fs1) ->
  env_to env m0 device fs1 = (Ok m, fs2) ->
  env_mkdir env out fs2 = (Ok tt, fs3) ->
  exists k,
    1 <= k <= length pairs /\
    trace (snd (process_stereo_pairs env data out model_dir fmt device w))
      = (trace w ++ header (length pairs) model_dir ++ [ETo m0 device; EMkdir out]
           ++ map (call_of m out fmt) (take k pairs))%list /\
    ((fst (process_stereo_pairs env data out model_dir fmt device w) = Ok tt
      /\ k = length pairs) \/
     (exists e, fst (process_stereo_pairs env data out model_dir fmt device w) = Raise e)).
Proof.
  intros H1 H2 Hfind Hne Hload Hto Hmk.
  rewrite (process_stereo_pairs_found env data out model_dir fmt device w pairs H1 H2 Hfind).
  destruct pairs as [|p ps]; [done |]. cbv zeta. rewrite Hload, Hto, Hmk.
  destruct (for_process_pair env m out fmt (p :: ps)
              {| files := fs3;
                 trace := ((trace w ++ header (length (p :: ps)) model_dir)
                             ++ [ETo m0 device; EMkdir out])%list |})
    as (k & Hk & Htr & Hres).
  exists k. split; [|split].
  - destruct Hres as [[_ ->] | (e & _ & ?)]; simpl in *; lia.
  - rewrite Htr. cbn [trace]. by rewrite <- !List.app_assoc.
  - destruct Hres as [? | (e & ? & _)]; [by left | right; by exists e].
Qed.

End Run.

(** C4.  When either stream directory of the data directory does not exist,
    the script raises [FileNotFoundError] and leaves the world as it was: no
    model was loaded, nothing was processed, nothing was printed.  The
    exception is not caught, so the exit status is 1.  The message names
    stream 1 when that directory is missing, stream 2 otherwise. *)
Theorem missing_stream_directory_raises
    {Model : Type} (env : Env Model) (args : Args) (w : World Model) :
  let d1 := stream1 (arg_data_dir args) in
  let d2 := stream2 (arg_data_dir args) in
  files w !! d1 = None \/ files w !! d2 = None ->
  exists msg,
    main env args w = (Raise (FileNotFoundError msg), w) /\
    exit_status env args w = (1, w) /\
    (files w !! d1 = None -> msg = "Stream 1 directory not found: " ++ str d1) /\
    (files w !! d1 <> None -> msg = "Stream 2 directory not found: " ++ str d2).
Proof.
  intros d1 d2 H.
  assert (exists msg,
            main env args w = (Raise (FileNotFoundError msg), w) /\
            (files w !! d1 = None -> msg = "Stream 1 directory not found: " ++ str d1) /\
            (files w !! d1 <> None -> msg = "Stream 2 directory not found: " ++ str d2))
    as (msg & Hmain & Hmsg).
  { unfold main, process_stereo_pairs. fold (stream1 (arg_data_dir args)) d1.
    fold (stream2 (arg_data_dir args)) d2.
    destruct (files w !! d1) as [n1|] eqn:E1.
    - destruct H as [H | H]; [done |].
      exists ("Stream 2 directory not found: " ++ str d2). split; [|done].
      rewrite (bind_Ok (exists_ d1) _ w true w)
        by (unfold exists_, path_exists; by rewrite E1).
      cbn [negb]. cbv iota.
      rewrite (bind_Ok (exists_ d2) _ w false w)
        by (unfold exists_, path_exists; by rewrite H).
      done.
    - exists ("Stream 1 directory not found: " ++ str d1). split; [|done].
      rewrite (bind_Ok (exists_ d1) _ w false w)
        by (unfold exists_, path_exists; by rewrite E1).
      done. }
  exists msg. split; [done |]. split; [|done].
  unfold exit_status. by rewrite Hmain.
Qed.

Lemma missing_stream_directory_raises_witness :
  main sample_env sample_args
    {| files := <[stream1 sample_data := Dir ["a_undistorted.jpg"]]> ∅; trace := [] |}
  = (Raise (FileNotFoundError "Stream 2 directory not found: data/stream_1201-2"),
     {| files := <[stream1 sample_data := Dir ["a_undistorted.jpg"]]> ∅; trace := [] |}).
Proof.
  destruct (missing_stream_directory_raises sample_env sample_args
              {| files := <[stream1 sample_data := Dir ["a_undistorted.jpg"]]> ∅;
                 trace := [] |})
    as (msg & Hmain & _ & _ & Hmsg).
  - right. reflexivity.
  - rewrite Hmain, Hmsg; [reflexivity | discriminate].
Defined.

(** C3.  When both stream directories exist and no key occurs in both, the
    script prints the count of pairs, 0, and the message that no matching
    pairs were found, and returns: exit status 0.  These two lines are all
    it does: no model is loaded, no inference is called, no directory is
    created, and the file system is as it was. *)
Theorem no_common_key_no_work
    {Model : Type} (env : Env Model) (args : Args) (w : World Model) :
  let d1 := stream1 (arg_data_dir args) in
  let d2 := stream2 (arg_data_dir args) in
  let w' := {| files := files w;
               trace := (trace w ++ [EPrint "Found 0 stereo pairs";
                                     EPrint "No matching pairs found!"])%list |} in
  is_Some (files w !! d1) -> is_Some (files w !! d2) ->
  (forall k, ~ (k ∈ stream_keys (files w) d1 /\ k ∈ stream_keys (files w) d2)) ->
  main env args w = (Ok tt, w') /\ exit_status env args w = (0, w').
Proof.
  intros d1 d2 w' H1 H2 Hnone.
  destruct (find_stereo_pairs_run d1 d2 w) as (pairs & Hfind & _).
  assert (pairs = []) as -> by (by apply (find_stereo_pairs_empty d1 d2 w)).
  assert (main env args w = (Ok tt, w')) as Hmain.
  { unfold main. by rewrite (process_stereo_pairs_found env _ _ _ _ _ w [] H1 H2 Hfind). }
  split; [done |]. unfold exit_status. by rewrite Hmain.
Qed.

Lemma no_common_key_no_work_witness :
  exit_status sample_env sample_args
    (sample_world ["a_undistorted.jpg"; "b_undistorted.jpg"] ["c_undistorted.jpg"])
  = (0, {| files := sample_files ["a_undistorted.jpg"; "b_undistorted.jpg"]
                                 ["c_undistorted.jpg"];
           trace := [EPrint "Found 0 stereo pairs"; EPrint "No matching pairs found!"] |}).
Proof.
  apply (no_common_key_no_work sample_env sample_args
           (sample_world ["a_undistorted.jpg"; "b_undistorted.jpg"] ["c_undistorted.jpg"])).
  - by eexists.
  - by eexists.
  - intros k.
    change (stream_keys _ (stream1 (arg_data_dir sample_args))) with ["a"; "b"].
    change (stream_keys _ (stream2 (arg_data_dir sample_args))) with ["c"].
    rewrite !elem_of_cons, !elem_of_nil. intuition congruence.
Defined.

(** C5 (amended).  Processing a pair is one call of the model's inference,
    on the pair's two paths, left then right, exporting to the subdirectory
    [pair_<timestamp>] of the output directory, where [<timestamp>] is the
    key of the pair (of its left image).  The loop makes these calls for the
    pairs in their order.  When it returns, every pair has had its call, once.
    When the calls for the pairs before [p] have returned and the call for
    [p] raises, the loop ends with that exception and the pairs after [p] get
    no call.  Every loop is of one of these two kinds, so the first pair of a
    list that is not empty always gets its call.  For the key
    [44335766666666] the subdirectory is [pair_44335766666666]. *)
Theorem each_pair_one_inference_call
    {Model : Type} (env : Env Model) (model : Model) (output_dir : Path)
    (export_format : string) (pairs : list (Path * Path)) (w : World Model) :
  let call (p : Path * Path) : Event Model :=
    EInference model [str p.1; str p.2]
      (str (output_dir // ("pair_" ++ path_key p.1))) export_format in
  let body := process_pair env model output_dir export_format in
  let raises (p : Path * Path) (w1 : World Model) (e : exn) : Prop :=
    fst (env_inference env model [str p.1; str p.2]
           (str (output_dir // ("pair_" ++ path_key p.1))) export_format (files w1))
    = Raise e in
  let loop := for_ pairs body in
  (forall p w0, trace (snd (body p w0)) = (trace w0 ++ [call p])%list) /\
  (forall w', loop w = (Ok tt, w') -> trace w' = (trace w ++ map call pairs)%list) /\
  (forall pre p post w1 e,
     pairs = (pre ++ p :: post)%list ->
     for_ pre body w = (Ok tt, w1) -> raises p w1 e ->
     fst (loop w) = Raise e /\
     trace (snd (loop w)) = (trace w ++ map call (pre ++ [p]))%list) /\
  ((exists w', loop w = (Ok tt, w')) \/
   (exists pre p post w1 e,
      pairs = (pre ++ p :: post)%list /\
      for_ pre body w = (Ok tt, w1) /\ raises p w1 e)) /\
  (exists k,
     k <= length pairs /\ (pairs <> [] -> 1 <= k) /\
     trace (snd (loop w)) = (trace w ++ map call (take k pairs))%list /\
     (fst (loop w) = Ok tt -> k = length pairs)) /\
  (forall p,
     path_key p.1 = "44335766666666" -> parts output_dir <> [] ->
     name (output_dir // ("pair_" ++ path_key p.1)) = "pair_44335766666666" /\
     call p = EInference model [str p.1; str p.2]
                (str output_dir ++ "/pair_44335766666666") export_format).
Proof.
  intros call body raises loop. split; [|split; [|split; [|split; [|split]]]].
  - intros p w0. unfold body. by rewrite process_pair_run.
  - intros w' Hok. by apply (for_process_pair_returns env model output_dir export_format).
  - intros pre p post w1 e -> Hpre Hp.
    by apply (for_process_pair_raises env model output_dir export_format pre post p w w1).
  - apply for_process_pair_cases.
  - destruct (for_process_pair env model output_dir export_format pairs w)
      as (k & Hk & Htr & Hres).
    exists k. split; [done |]. split; [|split].
    + intros Hne. destruct Hres as [[_ ->] | (e & _ & ?)]; [|done].
      destruct pairs; [done | simpl; lia].
    + exact Htr.
    + intros Hok. destruct Hres as [[_ ?] | (e & He & _)]; [done |].
      unfold loop, body in Hok. by rewrite He in Hok.
  - intros p Hkey Hparts. unfold call. rewrite Hkey. split; [apply name_join |].
    by rewrite str_join.
Qed.

Lemma each_pair_one_inference_call_witness :
  trace (snd (for_ [(stream1 sample_data // "44335766666666_undistorted.jpg",
                     stream2 sample_data // "44335766666666_undistorted.jpg")]
                (process_pair sample_env tt (sample_data // "depth_output") "npz")
                (sample_world ["44335766666666_undistorted.jpg"]
                              ["44335766666666_undistorted.jpg"])))
  = [EInference tt
       ["data/stream_1201-1/44335766666666_undistorted.jpg";
        "data/stream_1201-2/44335766666666_undistorted.jpg"]
       "data/depth_output/pair_44335766666666" "npz"].
Proof.
  destruct (each_pair_one_inference_call sample_env tt (sample_data // "depth_output")
              "npz"
              [(stream1 sample_data // "44335766666666_undistorted.jpg",
                stream2 sample_data // "44335766666666_undistorted.jpg")]
              (sample_world ["44335766666666_undistorted.jpg"]
                            ["44335766666666_undistorted.jpg"]))
    as (_ & Hret & _ & _ & _ & Hex).
  set (r := for_ _ _ _).
  rewrite (Hret (snd r) eq_refl). cbn [map trace sample_world app].
  destruct (Hex (stream1 sample_data // "44335766666666_undistorted.jpg",
                 stream2 sample_data // "44335766666666_undistorted.jpg"))
    as [_ ->]; [reflexivity | discriminate | reflexivity].
Defined.

(** C5 as stated fails: the list has two pairs and the call for the first
    raises; the loop ends there, and the second pair is processed by no
    inference call. *)
Lemma later_pair_not_called_counterexample :
  let w := sample_world ["1_undistorted.jpg"; "2_undistorted.jpg"]
                        ["1_undistorted.jpg"; "2_undistorted.jpg"] in
  let pairs := [(stream1 sample_data // "1_undistorted.jpg",
                 stream2 sample_data // "1_undistorted.jpg");
                (stream1 sample_data // "2_undistorted.jpg",
                 stream2 sample_data // "2_undistorted.jpg")] in
  let r := for_ pairs (process_pair sample_env_inference_raises tt
                         (sample_data // "depth_output") "npz") w in
  find_stereo_pairs (stream1 sample_data) (stream2 sample_data) w = (Ok pairs, w) /\
  fst r = Raise (RuntimeError "CUDA out of memory") /\
  trace (snd r)
    = [EInference tt ["data/stream_1201-1/1_undistorted.jpg";
                      "data/stream_1201-2/1_undistorted.jpg"]
         "data/depth_output/pair_1" "npz"] /\
  ~ (exists m dir fmt,
       EInference m ["data/stream_1201-1/2_undistorted.jpg";
                     "data/stream_1201-2/2_undistorted.jpg"] dir fmt
       ∈ trace (snd r)).
Proof.
  split; [vm_compute; reflexivity |]. split; [reflexivity |]. split; [reflexivity |].
  intros (m & dir & fmt & H). vm_compute in H.
  apply list_elem_of_singleton in H. discriminate H.
Qed.

(** C6 (amended).  In every run that finds N >= 1 pairs the model is loaded
    by exactly one call, and inference is called at most N times.  In a run
    that reaches the loop (loading, moving to the device and creating the
    output directory returned) the inference calls are all on the one model
    that was loaded and moved to the device, on the pairs in their order:
    when the run returns, one call on each of the N pairs; when the calls on
    the pairs before [p] have returned and the call on [p] raises, the run
    ends with that exception, having called inference on those pairs and on
    [p] and on no later pair.  Every run that reaches the loop is of one of
    these two kinds. *)
Theorem model_loaded_once_calls_in_order
    {Model : Type} (env : Env Model) (data out : Path)
    (model_dir fmt device : string) (w : World Model) (pairs : list (Path * Path)) :
  let r := process_stereo_pairs env data out model_dir fmt device w in
  is_Some (files w !! stream1 data) -> is_Some (files w !! stream2 data) ->
  find_stereo_pairs (stream1 data) (stream2 data) w = (Ok pairs, w) ->
  pairs <> [] ->
  exists tr,
    trace (snd r) = (trace w ++ tr)%list /\
    count is_load tr = 1 /\
    count is_inference tr <= length pairs /\
    (fst r = Ok tt -> count is_inference tr = length pairs) /\
    (forall m0 m fs1 fs2 fs3,
       env_from_pretrained env model_dir (files w) = (Ok m0, fs1) ->
       env_to env m0 device fs1 = (Ok m, fs2) ->
       env_mkdir env out fs2 = (Ok tt, fs3) ->
       let w3 := {| files := fs3;
                    trace := (trace w ++ header (length pairs) model_dir
                                ++ [ETo m0 device; EMkdir out])%list |} in
       let body := process_pair env m out fmt in
       let raises (p : Path * Path) (w1 : World Model) (e : exn) : Prop :=
         fst (env_inference env m [str p.1; str p.2]
                (str (out // ("pair_" ++ path_key p.1))) fmt (files w1)) = Raise e in
       (fst r = Ok tt -> List.filter is_inference tr = map (call_of m out fmt) pairs) /\
       (forall pre p post w1 e,
          pairs = (pre ++ p :: post)%list ->
          for_ pre body w3 = (Ok tt, w1) -> raises p w1 e ->
          fst r = Raise e /\
          List.filter is_inference tr = map (call_of m out fmt) (pre ++ [p])) /\
       (fst r = Ok tt \/
        exists pre p post w1 e,
          pairs = (pre ++ p :: post)%list /\
          for_ pre body w3 = (Ok tt, w1) /\ raises p w1 e) /\
       exists k,
         1 <= k <= length pairs /\
         List.filter is_inference tr = map (call_of m out fmt) (take k pairs) /\
         (k < length pairs -> exists e, fst r = Raise e)).
Proof.
  intros r H1 H2 Hfind Hne.
  pose proof (process_stereo_pairs_found env data out model_dir fmt device w pairs
                H1 H2 Hfind) as Hrun.
  fold r in Hrun. destruct pairs as [|p ps]; [done |]. cbv zeta in Hrun.
  destruct (env_from_pretrained env model_dir (files w)) as [[m0|e] fs1] eqn:Hload.
  2:{ exists (header (length (p :: ps)) model_dir). rewrite Hrun.
      split; [done |]. split; [done |]. split; [unfold count; simpl; lia |].
      split; [done |]. intros ? ? ? ? ? [=]. }
  destruct (env_to env m0 device fs1) as [[m|e] fs2] eqn:Hto.
  2:{ exists (header (length (p :: ps)) model_dir ++ [ETo m0 device])%list. rewrite Hrun.
      split; [cbn [snd trace]; by rewrite <- List.app_assoc |].
      split; [done |]. split; [unfold count; simpl; lia |].
      split; [done |].
      intros m0' m' fs1' fs2' fs3' [= <- <-] Hto'. by rewrite Hto in Hto'. }
  destruct (env_mkdir env out fs2) as [[[]|e] fs3] eqn:Hmk.
  2:{ exists (header (length (p :: ps)) model_dir ++ [ETo m0 device; EMkdir out])%list.
      rewrite Hrun.
      split; [cbn [snd trace]; by rewrite <- List.app_assoc |].
      split; [done |]. split; [unfold count; simpl; lia |].
      split; [done |].
      intros m0' m' fs1' fs2' fs3' [= <- <-] Hto'. rewrite Hto in Hto'.
      injection Hto' as <- <-. intros Hmk'. by rewrite Hmk in Hmk'. }
  destruct (process_stereo_pairs_loop env data out model_dir fmt device w (p :: ps)
              m0 m fs1 fs2 fs3 H1 H2 Hfind Hne Hload Hto Hmk) as (k & Hk & Htr & Hres).
  fold r in Htr, Hres.
  exists (header (length (p :: ps)) model_dir ++ [ETo m0 device; EMkdir out]
            ++ map (call_of m out fmt) (take k (p :: ps)))%list.
  split; [done |].
  assert (length (take k (p :: ps)) = k) as Hlen by (apply length_take_le; lia).
  split; [|split; [|split]].
  - rewrite !count_app, count_load_calls. done.
  - rewrite !count_app, count_inference_calls, Hlen. unfold count. simpl in Hk |- *. lia.
  - intros Hok. rewrite !count_app, count_inference_calls, Hlen.
    destruct Hres as [[_ ->] | (e & He)]; [done | by rewrite He in Hok].
  - intros m0' m' fs1' fs2' fs3' [= <- <-] Hto' Hmk'. rewrite Hto in Hto'.
    injection Hto' as <- <-. rewrite Hmk in Hmk'. injection Hmk' as <-.
    intros w3 body raises. subst body raises. cbv beta.
    assert (r = for_ (p :: ps) (process_pair env m out fmt) w3) as Hr.
    { rewrite Hrun. unfold w3. by rewrite <- List.app_assoc. }
    assert (forall calls,
              trace (snd r) = (trace w3 ++ map (call_of m out fmt) calls)%list ->
              List.filter is_inference
                (header (length (p :: ps)) model_dir ++ [ETo m0 device; EMkdir out]
                   ++ map (call_of m out fmt) (take k (p :: ps)))
              = map (call_of m out fmt) calls) as Hshape.
    { intros calls Hcalls. rewrite Htr in Hcalls. unfold w3 in Hcalls.
      cbn [trace] in Hcalls. rewrite <- !List.app_assoc in Hcalls.
      do 3 apply app_inv_head in Hcalls.
      rewrite !List.filter_app, filter_inference_calls, Hcalls. done. }
    split; [|split; [|split]].
    + intros Hok. apply Hshape.
      destruct r as [res w'] eqn:Er. simpl in Hok. subst res.
      symmetry in Hr. by apply (for_process_pair_returns env m out fmt).
    + intros pre q post w1 e Hpairs Hpre Hq.
      destruct (for_process_pair_raises env m out fmt pre post q w3 w1 e Hpre Hq)
        as [Hfst Htrace].
      rewrite <- Hpairs, <- Hr in Hfst, Htrace. split; [done |]. by apply Hshape.
    + destruct (for_process_pair_cases env m out fmt (p :: ps) w3)
        as [[w' Hok] | Hstop]; [left | by right].
      by rewrite Hr, Hok.
    + exists k. split; [done |]. split.
      * rewrite !List.filter_app, filter_inference_calls. done.
      * intros Hlt. destruct Hres as [[_ ->] | He]; [lia | done].
Qed.

Lemma model_loaded_once_calls_in_order_witness :
  exists tr,
    trace (snd (process_stereo_pairs sample_env sample_data (sample_data // "depth_output")
                  "depth-anything/DA3NESTED-GIANT-LARGE-1.1" "npz" "cuda"
                  (sample_world ["1_undistorted.jpg"; "2_undistorted.jpg"]
                                ["2_undistorted.jpg"; "1_undistorted.jpg"])))
    = tr /\ count is_load tr = 1 /\ count is_inference tr = 2.
Proof.
  destruct (model_loaded_once_calls_in_order sample_env sample_data
              (sample_data // "depth_output")
              "depth-anything/DA3NESTED-GIANT-LARGE-1.1" "npz" "cuda"
              (sample_world ["1_undistorted.jpg"; "2_undistorted.jpg"]
                            ["2_undistorted.jpg"; "1_undistorted.jpg"])
              [(stream1 sample_data // "1_undistorted.jpg",
                stream2 sample_data // "1_undistorted.jpg");
               (stream1 sample_data // "2_undistorted.jpg",
                stream2 sample_data // "2_undistorted.jpg")])
    as (tr & Htr & Hload & _ & Hinf & _).
  - by eexists.
  - by eexists.
  - vm_compute. reflexivity.
  - discriminate.
  - exists tr. split; [exact Htr |]. split; [exact Hload |]. apply Hinf.
    vm_compute. reflexivity.
Defined.

(** C6 as stated fails: two pairs are found, the model is loaded, the output
    directory is created, the first inference call raises; the run has
    called inference once, not twice. *)
Lemma inference_count_counterexample :
  let w := sample_world ["1_undistorted.jpg"; "2_undistorted.jpg"]
                        ["1_undistorted.jpg"; "2_undistorted.jpg"] in
  let r := main sample_env_inference_raises sample_args w in
  (exists pairs,
     find_stereo_pairs (stream1 sample_data) (stream2 sample_data) w = (Ok pairs, w) /\
     length pairs = 2) /\
  fst r = Raise (RuntimeError "CUDA out of memory") /\
  count is_load (trace (snd r)) = 1 /\
  count is_mkdir (trace (snd r)) = 1 /\
  count is_inference (trace (snd r)) = 1 /\
  count is_inference (trace (snd r)) <> 2.
Proof.
  split.
  - eexists. split; [vm_compute; reflexivity | reflexivity].
  - vm_compute. repeat split. discriminate.
Qed.

Lemma mkdir_in_run_trace {Model} (n : nat) (model_dir device fmt : string)
    (m0 m : Model) (out p : Path) (calls : list (Path * Path)) :
  EMkdir p ∈ (header n model_dir ++ [ETo m0 device; EMkdir out]
                ++ map (call_of m out fmt) calls)%list ->
  p = out.
Proof.
  unfold header. rewrite !elem_of_app, !elem_of_cons, !elem_of_nil.
  intros [H | [H | H]].
  - intuition discriminate.
  - destruct H as [H | [H | []]]; [discriminate | by injection H].
  - apply list_elem_of_In, in_map_iff in H as (q & H & _). discriminate.
Qed.

(** C10.  In a run that finds pairs, the output directory is created only
    after the model has been loaded and moved to the device: a [mkdir] among
    the run's events is the one of the output directory and comes after the
    successful load and move.  When loading raises, or moving to the device
    raises, the exception leaves [process_stereo_pairs]; the script has then
    made no [mkdir] and no inference call, so the file system is the one the
    failed call left, unchanged when that call wrote nothing. *)
Theorem output_directory_created_after_load
    {Model : Type} (env : Env Model) (data out : Path)
    (model_dir fmt device : string) (w : World Model) (pairs : list (Path * Path)) :
  let r := process_stereo_pairs env data out model_dir fmt device w in
  is_Some (files w !! stream1 data) -> is_Some (files w !! stream2 data) ->
  find_stereo_pairs (stream1 data) (stream2 data) w = (Ok pairs, w) ->
  pairs <> [] ->
  (forall e fs1,
     env_from_pretrained env model_dir (files w) = (Raise e, fs1) ->
     r = (Raise e, {| files := fs1;
                      trace := (trace w ++ header (length pairs) model_dir)%list |}) /\
     (fs1 = files w -> files (snd r) = files w)) /\
  (forall m0 e fs1 fs2,
     env_from_pretrained env model_dir (files w) = (Ok m0, fs1) ->
     env_to env m0 device fs1 = (Raise e, fs2) ->
     r = (Raise e, {| files := fs2;
                      trace := (trace w ++ header (length pairs) model_dir
                                  ++ [ETo m0 device])%list |}) /\
     (fs1 = files w -> fs2 = files w -> files (snd r) = files w)) /\
  (exists tr,
     trace (snd r) = (trace w ++ tr)%list /\
     forall p, EMkdir p ∈ tr ->
       p = out /\
       exists m0 m fs1 fs2 rest,
         env_from_pretrained env model_dir (files w) = (Ok m0, fs1) /\
         env_to env m0 device fs1 = (Ok m, fs2) /\
         tr = (header (length pairs) model_dir ++ [ETo m0 device; EMkdir out] ++ rest)%list /\
         count is_mkdir rest = 0).
Proof.
  intros r H1 H2 Hfind Hne.
  pose proof (process_stereo_pairs_found env data out model_dir fmt device w pairs
                H1 H2 Hfind) as Hrun.
  fold r in Hrun. destruct pairs as [|q qs]; [done |]. cbv zeta in Hrun.
  destruct (env_from_pretrained env model_dir (files w)) as [[m0|e] fs1] eqn:Hload.
  2:{ split.
      { intros e' fs1' [= <- <-]. rewrite Hrun. split; [done |]. by intros ->. }
      split; [by intros |].
      exists (header (length (q :: qs)) model_dir). rewrite Hrun. split; [done |].
      intros p Hp. unfold header in Hp.
      rewrite !elem_of_cons, elem_of_nil in Hp. intuition discriminate. }
  split; [by intros |].
  destruct (env_to env m0 device fs1) as [[m|e] fs2] eqn:Hto.
  2:{ split.
      - intros m0' e' fs1' fs2' [= <- <-] He'. rewrite Hto in He'.
        injection He' as <- <-. rewrite Hrun. rewrite <- List.app_assoc.
        split; [done |]. by intros _ ->.
      - exists (header (length (q :: qs)) model_dir ++ [ETo m0 device])%list.
        rewrite Hrun. split; [cbn [snd trace]; by rewrite <- List.app_assoc |].
        intros p Hp. unfold header in Hp.
        rewrite elem_of_app, !elem_of_cons, elem_of_nil in Hp. intuition discriminate. }
  split.
  { intros m0' e' fs1' fs2' [= <- <-] He'. rewrite Hto in He'. discriminate. }
  assert (exists calls,
            trace (snd r) = (trace w ++ header (length (q :: qs)) model_dir
                               ++ [ETo m0 device; EMkdir out]
                               ++ map (call_of m out fmt) calls)%list)
    as (calls & Htr).
  { destruct (env_mkdir env out fs2) as [[[]|e] fs3] eqn:Hmk.
    - destruct (process_stereo_pairs_loop env data out model_dir fmt device w (q :: qs)
                  m0 m fs1 fs2 fs3 H1 H2 Hfind Hne Hload Hto Hmk) as (k & _ & Htr & _).
      by exists (take k (q :: qs)).
    - exists []. rewrite Hrun. cbn [snd trace map]. by rewrite <- List.app_assoc. }
  exists (header (length (q :: qs)) model_dir ++ [ETo m0 device; EMkdir out]
            ++ map (call_of m out fmt) calls)%list.
  split; [done |]. intros p Hp. split; [by apply mkdir_in_run_trace in Hp |].
  exists m0, m, fs1, fs2, (map (call_of m out fmt) calls).
  split; [done |]. split; [done |]. split; [done |]. apply count_mkdir_calls.
Qed.

Lemma output_directory_created_after_load_witness :
  process_stereo_pairs sample_env_load_raises sample_data (sample_data // "depth_output")
    "depth-anything/DA3NESTED-GIANT-LARGE-1.1" "npz" "cuda"
    (sample_world ["1_undistorted.jpg"] ["1_undistorted.jpg"])
  = (Raise (RuntimeError "model not found"),
     {| files := sample_files ["1_undistorted.jpg"] ["1_undistorted.jpg"];
        trace := [EPrint "Found 1 stereo pairs";
                  EPrint "Loading model: depth-anything/DA3NESTED-GIANT-LARGE-1.1";
                  EFromPretrained "depth-anything/DA3NESTED-GIANT-LARGE-1.1"] |}).
Proof.
  destruct (output_directory_created_after_load sample_env_load_raises sample_data
              (sample_data // "depth_output")
              "depth-anything/DA3NESTED-GIANT-LARGE-1.1" "npz" "cuda"
              (sample_world ["1_undistorted.jpg"] ["1_undistorted.jpg"])
              [(stream1 sample_data // "1_undistorted.jpg",
                stream2 sample_data // "1_undistorted.jpg")])
    as (Hload & _ & _).
  - by eexists.
  - by eexists.
  - vm_compute. reflexivity.
  - discriminate.
  - apply (Hload (RuntimeError "model not found")
             (sample_files ["1_undistorted.jpg"] ["1_undistorted.jpg"])).
    reflexivity.
Defined.

(** ** Runs of the script on the sample worlds *)

Example timestamp_of_documented_name :
  get_timestamp_from_filename "44335766666666_undistorted.jpg" = "44335766666666".
Proof. reflexivity. Qed.

Example sorted_is_textual : PyStr.sorted ["2"; "10"; "1"] = ["1"; "10"; "2"].
Proof. reflexivity. Qed.

Example run_two_pairs :
  main sample_env sample_args
    (sample_world ["2_undistorted.jpg"; "10_undistorted.jpg"; "README.md"]
                  ["10_undistorted.jpg"; "2_undistorted.jpg"; "3_undistorted.jpg"])
  = (Ok tt,
     {| files := <[sample_data // "depth_output" := Dir []]>
                   (sample_files ["2_undistorted.jpg"; "10_undistorted.jpg"; "README.md"]
                      ["10_undistorted.jpg"; "2_undistorted.jpg"; "3_undistorted.jpg"]);
        trace := [EPrint "Found 2 stereo pairs";
                  EPrint "Loading model: depth-anything/DA3NESTED-GIANT-LARGE-1.1";
                  EFromPretrained "depth-anything/DA3NESTED-GIANT-LARGE-1.1";
                  ETo tt "cuda";
                  EMkdir (sample_data // "depth_output");
                  EInference tt ["data/stream_1201-1/10_undistorted.jpg";
                                 "data/stream_1201-2/10_undistorted.jpg"]
                    "data/depth_output/pair_10" "npz";
                  EInference tt ["data/stream_1201-1/2_undistorted.jpg";
                                 "data/stream_1201-2/2_undistorted.jpg"]
                    "data/depth_output/pair_2" "npz"] |}).
Proof. vm_compute. reflexivity. Qed.

Example run_inference_raises :
  exit_status sample_env_inference_raises sample_args
    (sample_world ["1_undistorted.jpg"; "2_undistorted.jpg"]
                  ["1_undistorted.jpg"; "2_undistorted.jpg"])
  = (1,
     {| files := <[sample_data // "depth_output" := Dir []]>
                   (sample_files ["1_undistorted.jpg"; "2_undistorted.jpg"]
                      ["1_undistorted.jpg"; "2_undistorted.jpg"]);
        trace := [EPrint "Found 2 stereo pairs";
                  EPrint "Loading model: depth-anything/DA3NESTED-GIANT-LARGE-1.1";
                  EFromPretrained "depth-anything/DA3NESTED-GIANT-LARGE-1.1";
                  ETo tt "cuda";
                  EMkdir (sample_data // "depth_output");
                  EInference tt ["data/stream_1201-1/1_undistorted.jpg";
                                 "data/stream_1201-2/1_undistorted.jpg"]
                    "data/depth_output/pair_1" "npz"] |}).
Proof. vm_compute. reflexivity. Qed.

(** * Further properties *)

(** ** The timestamp key *)

Lemma get_timestamp_length (s : string) :
  String.length (get_timestamp_from_filename s) <= String.length s.
Proof.
  induction s as [|c s IH]; [done |]. rewrite get_timestamp_cons.
  destruct (Ascii.eqb c "_"); simpl; lia.
Qed.

(** X1.  Extracting the key of a key changes nothing; the key of a name is
    the name itself exactly when the name has no underscore; the key is never
    longer than the name. *)
Theorem timestamp_key_idempotent (s : string) :
  get_timestamp_from_filename (get_timestamp_from_filename s)
    = get_timestamp_from_filename s /\
  (get_timestamp_from_filename s = s <-> PyStr.contains "_" s = false) /\
  String.length (get_timestamp_from_filename s) <= String.length s.
Proof.
  split; [apply get_timestamp_id, get_timestamp_no_underscore |].
  split; [|apply get_timestamp_length]. split.
  - intros H. rewrite <- H. apply get_timestamp_no_underscore.
  - apply get_timestamp_id.
Qed.

(** ** The pair finder *)

(** X2.  Only files selected by the pattern are paired: each pair is an
    entry [<t1>_undistorted.jpg] of the first directory with an entry
    [<t2>_undistorted.jpg] of the second, each joined to its directory, and
    [<t1>], [<t2>] have the same key, which is the key of the pair. *)
Theorem find_stereo_pairs_only_matching_files
    {Model : Type} (w : World Model) (d1 d2 : Path) :
  exists pairs,
    find_stereo_pairs d1 d2 w = (Ok pairs, w) /\
    forall p, p ∈ pairs ->
      exists e1 e2 t1 t2,
        files w !! d1 = Some (Dir e1) /\ files w !! d2 = Some (Dir e2) /\
        t1 ++ "_undistorted.jpg" ∈ e1 /\ t2 ++ "_undistorted.jpg" ∈ e2 /\
        p = (d1 // (t1 ++ "_undistorted.jpg"), d2 // (t2 ++ "_undistorted.jpg")) /\
        get_timestamp_from_filename t1 = get_timestamp_from_filename t2 /\
        pair_key p = get_timestamp_from_filename t1.
Proof.
  destruct (find_stereo_pairs_run d1 d2 w) as (pairs & Hrun & HF).
  exists pairs. split; [done |]. intros [l r] Hp.
  destruct (paired_elem_r _ _ _ _ _ _ HF Hp) as (ts & _ & Hts).
  apply paired_key in Hts as (Hk1 & Hk2 & Hl & Hr). simpl in *.
  apply elem_of_path_glob in Hl as (e1 & n1 & Hd1 & Hn1 & Hm1 & ->).
  apply elem_of_path_glob in Hr as (e2 & n2 & Hd2 & Hn2 & Hm2 & ->).
  apply fnmatch_pattern in Hm1 as [t1 ->]. apply fnmatch_pattern in Hm2 as [t2 ->].
  exists e1, e2, t1, t2. unfold pair_key in *. simpl in *.
  rewrite path_key_join in Hk1, Hk2 |- *.
  change "_undistorted.jpg" with (String "_" "undistorted.jpg") in Hk1, Hk2 |- *.
  rewrite get_timestamp_app in Hk1, Hk2 |- *.
  repeat (split; [done |]). split; [congruence | done].
Qed.

Lemma common_timestamps_comm (fs : FS) (d1 d2 : Path) :
  common_timestamps fs d2 d1 = common_timestamps fs d1 d2.
Proof.
  unfold common_timestamps. f_equal. f_equal. apply (comm_L (∩)).
Qed.

(** X3.  Exchanging the two directories exchanges the sides of every pair
    and changes nothing else: same pairs, same order. *)
Theorem find_stereo_pairs_swap
    {Model : Type} (w : World Model) (d1 d2 : Path) :
  exists pairs,
    find_stereo_pairs d1 d2 w = (Ok pairs, w) /\
    find_stereo_pairs d2 d1 w = (Ok (map prod_swap pairs), w).
Proof.
  destruct (find_stereo_pairs_run d1 d2 w) as (pairs & Hrun & HF).
  destruct (find_stereo_pairs_run d2 d1 w) as (pairs' & Hrun' & HF').
  exists pairs. split; [done |]. rewrite Hrun'. f_equal. f_equal.
  rewrite common_timestamps_comm in HF'.
  apply (paired_functional (files w) d2 d1 (common_timestamps (files w) d1 d2));
    [done |].
  clear -HF. induction HF as [|ts [l r] ls ps [H1 H2] _ IH]; simpl; [constructor |].
  constructor; [by split | done].
Qed.

(** A dictionary built from a list with pairwise distinct keys holds each
    element under its key. *)
Lemma dict_of_lookup_NoDup {V} (key : V -> string) (xs : list V) (v : V) :
  NoDup (map key xs) -> v ∈ xs -> dict_of key xs !! key v = Some v.
Proof.
  intros Hnd (pre & post & ->)%list_elem_of_split. apply dict_of_last.
  intros x Hx E. rewrite map_app in Hnd. simpl in Hnd.
  apply NoDup_app in Hnd as (_ & _ & Hnd). apply NoDup_cons in Hnd as [Hnot _].
  apply Hnot. rewrite <- E. apply list_elem_of_In, in_map. by apply list_elem_of_In.
Qed.

Lemma dict_of_Permutation {V} (key : V -> string) (xs ys : list V) :
  NoDup (map key xs) -> xs ≡ₚ ys -> dict_of key xs = dict_of key ys.
Proof.
  intros Hnd Hp.
  assert (NoDup (map key ys)) as Hnd'.
  { rewrite <- (Permutation_map key Hp). done. }
  apply map_eq. intros k.
  destruct (dict_of key xs !! k) as [v|] eqn:Ex.
  - apply dict_of_lookup_Some in Ex as [Hv <-]. symmetry.
    apply dict_of_lookup_NoDup; [done |]. by rewrite <- Hp.
  - destruct (dict_of key ys !! k) as [v|] eqn:Ey; [|done].
    apply dict_of_lookup_Some in Ey as [Hv <-].
    rewrite dict_of_lookup_NoDup in Ex; [done | done |]. by rewrite Hp.
Qed.

Lemma stream_images_Permutation (fs fs' : FS) (d : Path) (e e' : list string) :
  fs !! d = Some (Dir e) -> fs' !! d = Some (Dir e') ->
  NoDup (map get_timestamp_from_filename (List.filter (PyStr.fnmatch pattern) e)) ->
  List.filter (PyStr.fnmatch pattern) e ≡ₚ List.filter (PyStr.fnmatch pattern) e' ->
  stream_images fs d = stream_images fs' d.
Proof.
  intros Hd Hd' Hnd Hp. unfold stream_images.
  rewrite (path_glob_dir _ _ _ _ Hd), (path_glob_dir _ _ _ _ Hd').
  apply dict_of_Permutation; [|by apply Permutation_map].
  rewrite map_map. erewrite map_ext; [exact Hnd |].
  intros n. apply path_key_join.
Qed.

(** X4.  When the keys of the selected files are pairwise distinct in each
    directory, the result does not depend on the order in which the
    operating system lists a directory, nor on the entries the pattern does
    not select: two worlds whose two directories select the same files, in
    any order, give the same pairs. *)
Theorem find_stereo_pairs_listing_order_irrelevant
    {Model : Type} (w w' : World Model) (d1 d2 : Path) (e1 e1' e2 e2' : list string) :
  files w !! d1 = Some (Dir e1) -> files w' !! d1 = Some (Dir e1') ->
  files w !! d2 = Some (Dir e2) -> files w' !! d2 = Some (Dir e2') ->
  NoDup (map get_timestamp_from_filename (List.filter (PyStr.fnmatch pattern) e1)) ->
  NoDup (map get_timestamp_from_filename (List.filter (PyStr.fnmatch pattern) e2)) ->
  List.filter (PyStr.fnmatch pattern) e1 ≡ₚ List.filter (PyStr.fnmatch pattern) e1' ->
  List.filter (PyStr.fnmatch pattern) e2 ≡ₚ List.filter (PyStr.fnmatch pattern) e2' ->
  fst (find_stereo_pairs d1 d2 w) = fst (find_stereo_pairs d1 d2 w').
Proof.
  intros Hd1 Hd1' Hd2 Hd2' Hnd1 Hnd2 Hp1 Hp2.
  destruct (find_stereo_pairs_run d1 d2 w) as (ps & Hrun & HF).
  destruct (find_stereo_pairs_run d1 d2 w') as (ps' & Hrun' & HF').
  rewrite Hrun, Hrun'. simpl. f_equal.
  unfold common_timestamps, paired in HF, HF'.
  rewrite (stream_images_Permutation _ _ _ _ _ Hd1 Hd1' Hnd1 Hp1) in HF.
  rewrite (stream_images_Permutation _ _ _ _ _ Hd2 Hd2' Hnd2 Hp2) in HF.
  revert HF HF'. apply (paired_functional (files w') d1 d2).
Qed.

Lemma find_stereo_pairs_listing_order_irrelevant_witness :
  fst (find_stereo_pairs (stream1 sample_data) (stream2 sample_data)
         (sample_world ["1_undistorted.jpg"; "2_undistorted.jpg"]
                       ["2_undistorted.jpg"; "1_undistorted.jpg"]))
  = fst (find_stereo_pairs (stream1 sample_data) (stream2 sample_data)
           (sample_world ["2_undistorted.jpg"; "notes.txt"; "1_undistorted.jpg"]
                         ["1_undistorted.jpg"; "2_undistorted.jpg"; "2.jpg"])).
Proof.
  apply (find_stereo_pairs_listing_order_irrelevant _ _ _ _
           ["1_undistorted.jpg"; "2_undistorted.jpg"]
           ["2_undistorted.jpg"; "notes.txt"; "1_undistorted.jpg"]
           ["2_undistorted.jpg"; "1_undistorted.jpg"]
           ["1_undistorted.jpg"; "2_undistorted.jpg"; "2.jpg"]).
  - reflexivity.
  - reflexivity.
  - reflexivity.
  - reflexivity.
  - vm_compute. apply NoDup_cons. split; [|apply NoDup_singleton].
    intros H. apply list_elem_of_singleton in H. discriminate.
  - vm_compute. apply NoDup_cons. split; [|apply NoDup_singleton].
    intros H. apply list_elem_of_singleton in H. discriminate.
  - vm_compute. apply perm_swap.
  - vm_compute. apply perm_swap.
Defined.

(** X5.  There are at most as many pairs as selected files in either
    directory; in particular there is none when a directory has no selected
    file. *)
Theorem find_stereo_pairs_length
    {Model : Type} (w : World Model) (d1 d2 : Path) :
  exists pairs,
    find_stereo_pairs d1 d2 w = (Ok pairs, w) /\
    length pairs <= length (path_glob (files w) d1 pattern) /\
    length pairs <= length (path_glob (files w) d2 pattern) /\
    (path_glob (files w) d1 pattern = [] \/ path_glob (files w) d2 pattern = [] ->
     pairs = []).
Proof.
  destruct (find_stereo_pairs_run d1 d2 w) as (pairs & Hrun & HF).
  exists pairs. split; [done |].
  assert (forall d, (forall k, k ∈ common_timestamps (files w) d1 d2 ->
                               k ∈ stream_keys (files w) d) ->
                    length pairs <= length (path_glob (files w) d pattern)) as Hle.
  { intros d Hsub. rewrite <- (Forall2_length _ _ _ HF).
    rewrite <- (length_map path_key (path_glob (files w) d pattern)).
    apply submseteq_length, NoDup_submseteq; [apply common_timestamps_NoDup | done]. }
  assert (length pairs <= length (path_glob (files w) d1 pattern)) as H1.
  { apply Hle. intros k Hk. by apply elem_of_common_timestamps in Hk as [? _]. }
  assert (length pairs <= length (path_glob (files w) d2 pattern)) as H2.
  { apply Hle. intros k Hk. by apply elem_of_common_timestamps in Hk as [_ ?]. }
  split; [done |]. split; [done |].
  intros [E | E]; rewrite E in *; simpl in *; destruct pairs; simpl in *; done || lia.
Qed.

Lemma find_stereo_pairs_length_witness :
  fst (find_stereo_pairs (stream1 sample_data) (stream2 sample_data)
         (sample_world ["1_undistorted.jpg"; "2_undistorted.jpg"] ["2.jpg"]))
  = Ok [].
Proof.
  destruct (find_stereo_pairs_length
              (sample_world ["1_undistorted.jpg"; "2_undistorted.jpg"] ["2.jpg"])
              (stream1 sample_data) (stream2 sample_data))
    as (pairs & Hrun & _ & _ & Hnil).
  rewrite Hrun, Hnil; [reflexivity |]. right. reflexivity.
Defined.

Lemma well_named_name (e : list string) (n : string) :
  well_named e -> n ∈ e -> PyStr.fnmatch pattern n = true ->
  n = get_timestamp_from_filename n ++ "_undistorted.jpg".
Proof.
  intros Hw Hn Hm. destruct (Hw n Hn Hm) as (t & -> & Ht).
  change "_undistorted.jpg" with (String "_" "undistorted.jpg").
  by rewrite get_timestamp_app, (get_timestamp_id t Ht).
Qed.

Lemma elem_of_filter_fnmatch (e : list string) (n : string) :
  n ∈ List.filter (PyStr.fnmatch pattern) e <-> n ∈ e /\ PyStr.fnmatch pattern n = true.
Proof. by rewrite !list_elem_of_In, filter_In. Qed.

(** X6.  Under the documented naming (every selected entry is
    [<t>_undistorted.jpg] with no underscore in [<t>]) the pairs are exactly
    the selected files that have the same name in both directories, each
    paired with its namesake. *)
Theorem find_stereo_pairs_same_names
    {Model : Type} (w : World Model) (d1 d2 : Path) (e1 e2 : list string) :
  files w !! d1 = Some (Dir e1) -> files w !! d2 = Some (Dir e2) ->
  well_named e1 -> well_named e2 ->
  exists pairs,
    find_stereo_pairs d1 d2 w = (Ok pairs, w) /\
    forall p, p ∈ pairs <->
      exists n, n ∈ e1 /\ n ∈ e2 /\ PyStr.fnmatch pattern n = true /\
                p = (d1 // n, d2 // n).
Proof.
  intros Hd1 Hd2 Hw1 Hw2.
  destruct (find_stereo_pairs_run d1 d2 w) as (pairs & Hrun & HF).
  exists pairs. split; [done |]. intros [l r]. split.
  - intros Hp. destruct (paired_elem_r _ _ _ _ _ _ HF Hp) as (ts & _ & [Hl Hr]).
    simpl in Hl, Hr.
    destruct (stream_images_lookup_dir _ _ _ _ _ Hd1 Hl) as (n1 & -> & Hn1 & Hk1).
    destruct (stream_images_lookup_dir _ _ _ _ _ Hd2 Hr) as (n2 & -> & Hn2 & Hk2).
    apply elem_of_filter_fnmatch in Hn1 as [Hn1 Hm1], Hn2 as [Hn2 Hm2].
    assert (n2 = n1) as ->.
    { rewrite (well_named_name e1 n1), (well_named_name e2 n2) by done. congruence. }
    by exists n1.
  - intros (n & Hn1 & Hn2 & Hm & [= -> ->]).
    assert (get_timestamp_from_filename n ∈ common_timestamps (files w) d1 d2) as Hc.
    { apply elem_of_common_timestamps.
      rewrite (stream_keys_dir _ _ _ Hd1), (stream_keys_dir _ _ _ Hd2).
      split; apply list_elem_of_In, in_map, list_elem_of_In, elem_of_filter_fnmatch; done. }
    destruct (paired_elem_l _ _ _ _ _ _ HF Hc) as ([l r] & Hp & [Hl Hr]).
    simpl in Hl, Hr.
    destruct (stream_images_lookup_dir _ _ _ _ _ Hd1 Hl) as (n1 & -> & Hm1 & Hk1).
    destruct (stream_images_lookup_dir _ _ _ _ _ Hd2 Hr) as (n2 & -> & Hm2 & Hk2).
    apply elem_of_filter_fnmatch in Hm1 as [? ?], Hm2 as [? ?].
    assert (n1 = n) as ->.
    { rewrite (well_named_name e1 n1), (well_named_name e1 n) by done. congruence. }
    assert (n2 = n) as ->.
    { rewrite (well_named_name e2 n2), (well_named_name e2 n) by done. congruence. }
    done.
Qed.

Lemma find_stereo_pairs_same_names_witness :
  exists pairs,
    find_stereo_pairs (stream1 sample_data) (stream2 sample_data)
      (sample_world ["1_undistorted.jpg"; "2_undistorted.jpg"]
                    ["2_undistorted.jpg"; "3_undistorted.jpg"])
    = (Ok pairs, sample_world ["1_undistorted.jpg"; "2_undistorted.jpg"]
                              ["2_undistorted.jpg"; "3_undistorted.jpg"]) /\
    (stream1 sample_data // "2_undistorted.jpg",
     stream2 sample_data // "2_undistorted.jpg") ∈ pairs.
Proof.
  assert (forall a b : string,
            PyStr.contains "_" a = false -> PyStr.contains "_" b = false ->
            well_named [a ++ "_undistorted.jpg"; b ++ "_undistorted.jpg"]) as Hwn.
  { intros a b Ha Hb n Hn _. apply elem_of_cons in Hn as [-> | Hn]; [by exists a |].
    apply list_elem_of_singleton in Hn as ->. by exists b. }
  destruct (find_stereo_pairs_same_names
              (sample_world ["1_undistorted.jpg"; "2_undistorted.jpg"]
                            ["2_undistorted.jpg"; "3_undistorted.jpg"])
              (stream1 sample_data) (stream2 sample_data)
              ["1_undistorted.jpg"; "2_undistorted.jpg"]
              ["2_undistorted.jpg"; "3_undistorted.jpg"])
    as (pairs & Hrun & Hiff).
  - reflexivity.
  - reflexivity.
  - apply (Hwn "1" "2"); reflexivity.
  - apply (Hwn "2" "3"); reflexivity.
  - exists pairs. split; [exact Hrun |]. apply Hiff.
    exists "2_undistorted.jpg". split; [right; left |]. split; [left |].
    split; reflexivity.
Defined.

(** ** Export directories *)

Lemma str_join_inj (out : Path) (c1 c2 : string) :
  str (out // c1) = str (out // c2) -> c1 = c2.
Proof.
  destruct (parts out) as [|x ps] eqn:E.
  - unfold str, path_join. rewrite E. cbn [root parts app].
    destruct (root out); cbn [PyStr.join]; [|done].
    intros H. by apply (inj (String.append "/")) in H.
  - rewrite !str_join by (by rewrite E). intros H.
    apply (inj (String.append (str out))) in H.
    by apply (inj (String.append "/")) in H.
Qed.

Lemma export_dir_of_inj (out : Path) (p q : Path * Path) :
  export_dir_of out p = export_dir_of out q -> pair_key p = pair_key q.
Proof.
  unfold export_dir_of. intros H%str_join_inj.
  by apply (inj (String.append "pair_")) in H.
Qed.

Lemma NoDup_export_dir_of (out : Path) (l : list (Path * Path)) :
  NoDup (map pair_key l) -> NoDup (map (export_dir_of out) l).
Proof.
  induction l as [|p ps IH]; simpl; [constructor |]. intros Hnd.
  apply NoDup_cons in Hnd as [Hp Hnd]. apply NoDup_cons. split; [|by apply IH].
  intros Hin. apply Hp.
  apply list_elem_of_In, in_map_iff in Hin as (q & Hq & Hin).
  apply export_dir_of_inj in Hq. rewrite <- Hq.
  apply list_elem_of_In, in_map. exact Hin.
Qed.

Lemma export_dirs_calls {Model} (m : Model) (out : Path) (fmt : string)
    (l : list (Path * Path)) :
  export_dirs (map (call_of m out fmt) l) = map (export_dir_of out) l.
Proof. induction l as [|p ps IH]; simpl; [done | by rewrite <- IH]. Qed.

Lemma NoDup_map_take {A B} (f : A -> B) (k : nat) (l : list A) :
  NoDup (map f l) -> NoDup (map f (take k l)).
Proof.
  revert k. induction l as [|x l IH]; intros [|k] Hnd; simpl; try constructor.
  - apply NoDup_cons in Hnd as [Hx Hnd]. intros Hin. apply Hx.
    apply list_elem_of_In, in_map_iff in Hin as (y & <- & Hy).
    apply list_elem_of_In, in_map. apply list_elem_of_In.
    apply (subseteq_take k). by apply list_elem_of_In.
  - apply IH. by apply NoDup_cons in Hnd as [_ ?].
Qed.

(** ** Whole runs *)

Section RunFacts.
Context {Model : Type} (env : Env Model).
Implicit Types w : World Model.

Lemma process_stereo_pairs_missing (data out : Path) (model_dir fmt device : string) w :
  files w !! stream1 data = None \/ files w !! stream2 data = None ->
  exists msg,
    process_stereo_pairs env data out model_dir fmt device w
    = (Raise (FileNotFoundError msg), w).
Proof.
  intros H. unfold process_stereo_pairs. fold (stream1 data) (stream2 data).
  destruct (files w !! stream1 data) as [n1|] eqn:E1.
  - destruct H as [H | H]; [done |]. eexists.
    rewrite (bind_Ok (exists_ (stream1 data)) _ w true w)
      by (unfold exists_, path_exists; by rewrite E1).
    cbn [negb]. cbv iota.
    rewrite (bind_Ok (exists_ (stream2 data)) _ w false w)
      by (unfold exists_, path_exists; by rewrite H).
    reflexivity.
  - eexists.
    rewrite (bind_Ok (exists_ (stream1 data)) _ w false w)
      by (unfold exists_, path_exists; by rewrite E1).
    reflexivity.
Qed.

(** A computation keeps a property of the file system. *)
Lemma keeps_bind {A B} (P : FS -> Prop) (m : M Model A) (k : A -> M Model B) w :
  (forall w0, P (files w0) -> P (files (snd (m w0)))) ->
  (forall a w0, P (files w0) -> P (files (snd (k a w0)))) ->
  P (files w) -> P (files (snd (bind m k w))).
Proof.
  intros Hm Hk HP. unfold bind. specialize (Hm w HP).
  destruct (m w) as [[a|e] w']; simpl in *; [by apply Hk | done].
Qed.

Lemma keeps_for_process_pair (P : FS -> Prop) (m : Model) (out : Path) (fmt : string)
    (pairs : list (Path * Path)) w :
  env_preserves env P ->
  P (files w) -> P (files (snd (for_ pairs (process_pair env m out fmt) w))).
Proof.
  intros (_ & _ & _ & Hinf). revert w.
  induction pairs as [|p ps IH]; intros w HP; [done |].
  simpl. apply keeps_bind; [| by intros _; apply IH | done].
  intros w0 HP0. rewrite process_pair_run. simpl. by apply Hinf.
Qed.

Lemma keeps_process_stereo_pairs (P : FS -> Prop) (data out : Path)
    (model_dir fmt device : string) w :
  env_preserves env P ->
  P (files w) ->
  P (files (snd (process_stereo_pairs env data out model_dir fmt device w))).
Proof.
  intros Henv HP. pose proof Henv as (Hload & Hto & Hmk & Hinf).
  unfold process_stereo_pairs.
  apply keeps_bind; [done | | done]. intros e1 w1 HP1.
  destruct (negb e1); [done |].
  apply keeps_bind; [done | | done]. intros e2 w2 HP2.
  destruct (negb e2); [done |].
  apply keeps_bind; [| | done].
  { intros w0 HP0. destruct (find_stereo_pairs_run (data // "stream_1201-1")
                               (data // "stream_1201-2") w0) as (ps & -> & _). done. }
  intros pairs w3 HP3.
  apply keeps_bind; [done | | done]. intros _ w4 HP4.
  destruct pairs as [|p ps]; [done |].
  apply keeps_bind; [done | | done]. intros _ w5 HP5.
  apply keeps_bind; [| | done].
  { intros w0 HP0. unfold from_pretrained.
    specialize (Hload model_dir (files w0) HP0).
    by destruct (env_from_pretrained env model_dir (files w0)). }
  intros m0 w6 HP6.
  apply keeps_bind; [| | done].
  { intros w0 HP0. unfold to. specialize (Hto m0 device (files w0) HP0).
    by destruct (env_to env m0 device (files w0)). }
  intros m w7 HP7.
  apply keeps_bind; [| | done].
  { intros w0 HP0. unfold mkdir. specialize (Hmk out (files w0) HP0).
    by destruct (env_mkdir env out (files w0)). }
  intros _ w8 HP8. by apply keeps_for_process_pair.
Qed.

End RunFacts.

(** X7.  No two inference calls of a run export to the same directory: in
    every run of [main], whatever the file system holds and however the run
    ends, the export directories of the inference calls made are pairwise
    distinct. *)
Theorem export_directories_distinct
    {Model : Type} (env : Env Model) (args : Args) (w : World Model) :
  exists tr,
    trace (snd (main env args w)) = (trace w ++ tr)%list /\
    NoDup (export_dirs tr).
Proof.
  unfold main. fold (output_dir_of args).
  set (data := arg_data_dir args).
  set (r := process_stereo_pairs env data (output_dir_of args) (arg_model_dir args)
              (arg_export_format args) (arg_device args) w).
  destruct (files w !! stream1 data) as [n1|] eqn:E1;
    [destruct (files w !! stream2 data) as [n2|] eqn:E2 |].
  2,3: destruct (process_stereo_pairs_missing env data (output_dir_of args)
                   (arg_model_dir args) (arg_export_format args) (arg_device args) w)
         as [msg Hr];
       [by (left + right) | fold r in Hr; rewrite Hr; exists [];
        rewrite List.app_nil_r; split; [done | constructor]].
  assert (is_Some (files w !! stream1 data)) as H1 by (by rewrite E1).
  assert (is_Some (files w !! stream2 data)) as H2 by (by rewrite E2).
  destruct (find_stereo_pairs_run (stream1 data) (stream2 data) w) as (pairs & Hfind & HF).
  pose proof (process_stereo_pairs_found env data (output_dir_of args)
                (arg_model_dir args) (arg_export_format args) (arg_device args)
                w pairs H1 H2 Hfind) as Hrun.
  fold r in Hrun. destruct pairs as [|p ps].
  { rewrite Hrun. eexists. split; [reflexivity | constructor]. }
  cbv zeta in Hrun.
  destruct (env_from_pretrained env (arg_model_dir args) (files w))
    as [[m0|e] fs1] eqn:Hload.
  2:{ rewrite Hrun. eexists. split; [reflexivity | constructor]. }
  destruct (env_to env m0 (arg_device args) fs1) as [[m|e] fs2] eqn:Hto.
  2:{ rewrite Hrun. eexists. split; [cbn [snd trace]; by rewrite <- List.app_assoc |].
      constructor. }
  destruct (env_mkdir env (output_dir_of args) fs2) as [[[]|e] fs3] eqn:Hmk.
  2:{ rewrite Hrun. eexists. split; [cbn [snd trace]; by rewrite <- List.app_assoc |].
      constructor. }
  destruct (process_stereo_pairs_loop env data (output_dir_of args)
              (arg_model_dir args) (arg_export_format args) (arg_device args)
              w (p :: ps) m0 m fs1 fs2 fs3 H1 H2 Hfind ltac:(done) Hload Hto Hmk)
    as (k & Hk & Htr & _).
  fold r in Htr. eexists. split; [exact Htr |].
  unfold export_dirs. rewrite !flat_map_app. cbn [flat_map header app].
  fold (export_dirs (map (call_of m (output_dir_of args) (arg_export_format args))
                       (take k (p :: ps)))).
  rewrite export_dirs_calls. apply NoDup_export_dir_of, NoDup_map_take.
  rewrite (paired_keys _ _ _ _ _ HF). apply common_timestamps_NoDup.
Qed.


(** X8.  When creating the output directory raises, the exception leaves
    [process_stereo_pairs] after the model has been loaded and moved to the
    device, and not one inference call has been made. *)
Theorem mkdir_failure_stops_before_inference
    {Model : Type} (env : Env Model) (data out : Path)
    (model_dir fmt device : string) (w : World Model) (pairs : list (Path * Path))
    (m0 m : Model) (fs1 fs2 fs3 : FS) (e : exn) :
  is_Some (files w !! stream1 data) -> is_Some (files w !! stream2 data) ->
  find_stereo_pairs (stream1 data) (stream2 data) w = (Ok pairs, w) ->
  pairs <> [] ->
  env_from_pretrained env model_dir (files w) = (Ok m0, fs1) ->
  env_to env m0 device fs1 = (Ok m, fs2) ->
  env_mkdir env out fs2 = (Raise e, fs3) ->
  process_stereo_pairs env data out model_dir fmt device w
  = (Raise e, {| files := fs3;
                 trace := (trace w ++ header (length pairs) model_dir
                             ++ [ETo m0 device; EMkdir out])%list |}) /\
  count is_inference (header (length pairs) model_dir ++ [ETo m0 device; EMkdir out]) = 0.
Proof.
  intros H1 H2 Hfind Hne Hload Hto Hmk. split; [|done].
  rewrite (process_stereo_pairs_found env data out model_dir fmt device w pairs H1 H2 Hfind).
  destruct pairs as [|p ps]; [done |]. cbv zeta. rewrite Hload, Hto, Hmk.
  by rewrite <- List.app_assoc.
Qed.

Lemma mkdir_failure_stops_before_inference_witness :
  process_stereo_pairs sample_env_mkdir_raises sample_data (sample_data // "depth_output")
    "depth-anything/DA3NESTED-GIANT-LARGE-1.1" "npz" "cuda"
    (sample_world ["1_undistorted.jpg"] ["1_undistorted.jpg"])
  = (Raise (RuntimeError "Permission denied"),
     {| files := sample_files ["1_undistorted.jpg"] ["1_undistorted.jpg"];
        trace := [EPrint "Found 1 stereo pairs";
                  EPrint "Loading model: depth-anything/DA3NESTED-GIANT-LARGE-1.1";
                  EFromPretrained "depth-anything/DA3NESTED-GIANT-LARGE-1.1";
                  ETo tt "cuda";
                  EMkdir (sample_data // "depth_output")] |}).
Proof.
  destruct (mkdir_failure_stops_before_inference sample_env_mkdir_raises sample_data
              (sample_data // "depth_output")
              "depth-anything/DA3NESTED-GIANT-LARGE-1.1" "npz" "cuda"
              (sample_world ["1_undistorted.jpg"] ["1_undistorted.jpg"])
              [(stream1 sample_data // "1_undistorted.jpg",
                stream2 sample_data // "1_undistorted.jpg")]
              tt tt
              (sample_files ["1_undistorted.jpg"] ["1_undistorted.jpg"])
              (sample_files ["1_undistorted.jpg"] ["1_undistorted.jpg"])
              (sample_files ["1_undistorted.jpg"] ["1_undistorted.jpg"])
              (RuntimeError "Permission denied"))
    as [Hrun _].
  - by eexists.
  - by eexists.
  - vm_compute. reflexivity.
  - discriminate.
  - reflexivity.
  - reflexivity.
  - reflexivity.
  - exact Hrun.
Defined.

(** X9.  The check on a stream directory is that the path exists, not that
    it is a directory: with a regular file in the place of a stream
    directory (the other path existing) the run reports no pairs and exits
    with status 0, having loaded no model and created no directory. *)
Theorem regular_file_as_stream_directory
    {Model : Type} (env : Env Model) (args : Args) (w : World Model) :
  let d1 := stream1 (arg_data_dir args) in
  let d2 := stream2 (arg_data_dir args) in
  let w' := {| files := files w;
               trace := (trace w ++ [EPrint "Found 0 stereo pairs";
                                     EPrint "No matching pairs found!"])%list |} in
  (files w !! d1 = Some File /\ is_Some (files w !! d2)) \/
  (is_Some (files w !! d1) /\ files w !! d2 = Some File) ->
  exit_status env args w = (0, w').
Proof.
  intros d1 d2 w' H.
  assert (is_Some (files w !! d1) /\ is_Some (files w !! d2)) as [H1 H2].
  { destruct H as [[E ?] | [? E]]; rewrite ?E; done. }
  destruct (find_stereo_pairs_run d1 d2 w) as (pairs & Hfind & _).
  assert (pairs = []) as ->.
  { apply (find_stereo_pairs_empty d1 d2 w); [done |]. intros k [Hk1 Hk2].
    unfold stream_keys, path_glob in Hk1, Hk2.
    destruct H as [[E _] | [_ E]]; rewrite E in *; simpl in *;
      [by apply elem_of_nil in Hk1 | by apply elem_of_nil in Hk2]. }
  unfold exit_status, main.
  by rewrite (process_stereo_pairs_found env _ _ _ _ _ w [] H1 H2 Hfind).
Qed.

Lemma regular_file_as_stream_directory_witness :
  exit_status sample_env sample_args
    {| files := <[stream1 sample_data := File]>
                  (<[stream2 sample_data := Dir ["1_undistorted.jpg"]]> ∅);
       trace := [] |}
  = (0, {| files := <[stream1 sample_data := File]>
                      (<[stream2 sample_data := Dir ["1_undistorted.jpg"]]> ∅);
           trace := [EPrint "Found 0 stereo pairs";
                     EPrint "No matching pairs found!"] |}).
Proof.
  refine (regular_file_as_stream_directory sample_env sample_args
            {| files := <[stream1 sample_data := File]>
                          (<[stream2 sample_data := Dir ["1_undistorted.jpg"]]> ∅);
               trace := [] |} _).
  left. split; [reflexivity | by eexists].
Defined.

(** X10.  The script writes to the file system only through its four
    collaborator calls: every property of the file system that these calls
    keep holds after a run of [main] if it held before, however the run
    ends.  In particular the file system is unchanged by a run whose
    collaborators write nothing. *)
Theorem file_system_changed_only_by_collaborators
    {Model : Type} (env : Env Model) (args : Args) (w : World Model) (P : FS -> Prop) :
  env_preserves env P ->
  P (files w) ->
  P (files (snd (main env args w))) /\ P (files (snd (exit_status env args w))).
Proof.
  intros Henv HP.
  assert (P (files (snd (main env args w)))) as Hmain.
  { unfold main. by apply keeps_process_stereo_pairs. }
  split; [done |]. unfold exit_status.
  by destruct (main env args w) as [[[]|e] w'].
Qed.

Lemma file_system_changed_only_by_collaborators_witness :
  files (snd (main sample_env_mkdir_raises sample_args
                (sample_world ["1_undistorted.jpg"] ["1_undistorted.jpg"])))
  = sample_files ["1_undistorted.jpg"] ["1_undistorted.jpg"].
Proof.
  apply (file_system_changed_only_by_collaborators sample_env_mkdir_raises
           sample_args (sample_world ["1_undistorted.jpg"] ["1_undistorted.jpg"])
           (fun fs => fs = sample_files ["1_undistorted.jpg"] ["1_undistorted.jpg"])).
  - repeat split; intros; assumption.
  - reflexivity.
Defined.


Lemma phase_calls_Forall {Model} (e : Event Model) (m : Model) (out : Path)
    (fmt : string) (l : list (Path * Path)) :
  Forall (fun b => phase e <= phase b) (map (call_of m out fmt) l).
Proof.
  apply Forall_forall. intros b Hb.
  apply list_elem_of_In, in_map_iff in Hb as (p & <- & _). destruct e; simpl; lia.
Qed.

Lemma phase_calls_sorted {Model} (m : Model) (out : Path) (fmt : string)
    (l : list (Path * Path)) :
  StronglySorted (fun a b : Event Model => phase a <= phase b) (map (call_of m out fmt) l).
Proof.
  induction l as [|p ps IH]; simpl; constructor; [done |].
  apply (phase_calls_Forall (call_of m out fmt p)).
Qed.

(** X11.  Whatever the collaborators answer and whatever the file system
    holds, a run of [main] only adds events to those before it, and its
    events come in the order of the script: printing, one call to load the
    model at most, the move to the device, one call of [mkdir] at most, the
    inference calls.  So a [mkdir] call comes after the load and every
    inference call after the [mkdir] call.  [mkdir] is called only when the
    load and the move have returned, and inference only when [mkdir] has
    returned. *)
Theorem run_events_bounded
    {Model : Type} (env : Env Model) (args : Args) (w : World Model) :
  exists tr,
    trace (snd (main env args w)) = (trace w ++ tr)%list /\
    count is_load tr <= 1 /\
    count is_mkdir tr <= 1 /\
    StronglySorted (fun a b => phase a <= phase b) tr /\
    (1 <= count is_mkdir tr ->
     count is_load tr = 1 /\
     exists m0 fs1 m fs2,
       env_from_pretrained env (arg_model_dir args) (files w) = (Ok m0, fs1) /\
       env_to env m0 (arg_device args) fs1 = (Ok m, fs2)) /\
    (1 <= count is_inference tr ->
     count is_mkdir tr = 1 /\
     exists m0 fs1 m fs2 fs3,
       env_from_pretrained env (arg_model_dir args) (files w) = (Ok m0, fs1) /\
       env_to env m0 (arg_device args) fs1 = (Ok m, fs2) /\
       env_mkdir env (output_dir_of args) fs2 = (Ok tt, fs3)).
Proof.
  unfold main. fold (output_dir_of args).
  set (data := arg_data_dir args).
  set (out := output_dir_of args).
  set (r := process_stereo_pairs env data out (arg_model_dir args)
              (arg_export_format args) (arg_device args) w).
  destruct (files w !! stream1 data) as [n1|] eqn:E1;
    [destruct (files w !! stream2 data) as [n2|] eqn:E2 |].
  2,3: destruct (process_stereo_pairs_missing env data out (arg_model_dir args)
                   (arg_export_format args) (arg_device args) w) as [msg Hr];
       [by (left + right) | fold r in Hr; rewrite Hr; exists [];
        rewrite List.app_nil_r; unfold count; simpl;
        repeat split; try lia; constructor].
  assert (is_Some (files w !! stream1 data)) as H1 by (by rewrite E1).
  assert (is_Some (files w !! stream2 data)) as H2 by (by rewrite E2).
  destruct (find_stereo_pairs_run (stream1 data) (stream2 data) w) as (pairs & Hfind & _).
  pose proof (process_stereo_pairs_found env data out (arg_model_dir args)
                (arg_export_format args) (arg_device args) w pairs H1 H2 Hfind) as Hrun.
  fold r in Hrun. destruct pairs as [|p ps].
  { rewrite Hrun. eexists. split; [reflexivity |]. unfold count. simpl.
    split; [lia |]. split; [lia |]. split; [by repeat constructor |]. split; lia. }
  cbv zeta in Hrun.
  destruct (env_from_pretrained env (arg_model_dir args) (files w))
    as [[m0|e] fs1] eqn:Hload.
  2:{ rewrite Hrun. eexists. split; [reflexivity |]. unfold count, header. simpl.
      split; [lia |]. split; [lia |].
      split; [repeat constructor; simpl; lia |]. split; lia. }
  destruct (env_to env m0 (arg_device args) fs1) as [[m|e] fs2] eqn:Hto.
  2:{ rewrite Hrun. eexists. split; [cbn [snd trace]; by rewrite <- List.app_assoc |].
      unfold count, header. simpl. split; [lia |]. split; [lia |].
      split; [repeat constructor; simpl; lia |]. split; lia. }
  destruct (env_mkdir env out fs2) as [[[]|e] fs3] eqn:Hmk.
  2:{ rewrite Hrun. eexists. split; [cbn [snd trace]; by rewrite <- List.app_assoc |].
      unfold count, header. simpl. split; [lia |]. split; [lia |].
      split; [repeat constructor; simpl; lia |].
      split; [|lia]. intros _. split; [done |]. by exists m0, fs1, m, fs2. }
  destruct (process_stereo_pairs_loop env data out (arg_model_dir args)
              (arg_export_format args) (arg_device args) w (p :: ps)
              m0 m fs1 fs2 fs3 H1 H2 Hfind ltac:(done) Hload Hto Hmk)
    as (k & Hk & Htr & _).
  fold r in Htr. eexists. split; [exact Htr |].
  rewrite !count_app, count_load_calls, count_mkdir_calls, count_inference_calls.
  split; [unfold count; simpl; lia |]. split; [unfold count; simpl; lia |].
  split.
  { unfold header. cbn [app].
    repeat (apply SSorted_cons;
            [| repeat (apply List.Forall_cons; [simpl; lia |]);
               apply (phase_calls_Forall _ m out (arg_export_format args))]).
    apply phase_calls_sorted. }
  split.
  - intros _. split; [done |]. by exists m0, fs1, m, fs2.
  - intros _. split; [done |]. by exists m0, fs1, m, fs2, fs3.
Qed.




